(** * EDGAR CIK crawler: the record normalizer, the writer, the filing
      lister and the best-variant selector of [edgar_cik_crawler.py]

    The Python module is embedded shallowly.  A Python [str] is the list
    of its code points, the builtin string operations the script relies on
    ([str.split], [str.strip], [str.join], [in]) are written out as list
    functions, and the functions of the script are translated statement by
    statement on top of them. *)

From Stdlib Require Import NArith ZArith String Ascii.
From stdpp Require Import base decidable option list gmap.

Local Open Scope N_scope.

(** ** Python strings *)

Module Py.

(** A [str] is a sequence of Unicode code points. *)
Abbreviation str := (list N).

(** An ASCII literal as a [str]. *)
Definition lit (s : string) : str := map N_of_ascii (list_ascii_of_string s).

Definition space : N := 32.
Definition tab : N := 9.
Definition nl : N := 10.
Definition slash : N := 47.
Definition dash : N := 45.

(** The characters [str.split()] and [str.strip()] treat as whitespace
    (CPython's [Py_UNICODE_ISSPACE]). *)
Definition isspace (c : N) : bool :=
  ((9 <=? c) && (c <=? 13)) || ((28 <=? c) && (c <=? 32))
  || (c =? 133) || (c =? 160) || (c =? 5760)
  || ((8192 <=? c) && (c <=? 8202))
  || (c =? 8232) || (c =? 8233) || (c =? 8239) || (c =? 8287) || (c =? 12288).

(** [x :: h] put in front of the first piece of a split. *)
Definition cons_hd (x : N) (pieces : list str) : list str :=
  match pieces with
  | h :: t => (x :: h) :: t
  | [] => [[x]]
  end.

(** [s.split(c)] for a one-character separator: every occurrence of [c]
    ends a piece, empty pieces are kept. *)
Fixpoint split_on (c : N) (s : str) : list str :=
  match s with
  | [] => [[]]
  | x :: r => if x =? c then [] :: split_on c r else cons_hd x (split_on c r)
  end.

(** [s.split()]: maximal runs of non-whitespace characters. *)
Fixpoint split (s : str) : list str :=
  match s with
  | [] => []
  | x :: r =>
      if isspace x then split r
      else match r with
           | [] => [[x]]
           | y :: _ => if isspace y then [x] :: split r else cons_hd x (split r)
           end
  end.

(** [sep.join(l)]. *)
Fixpoint join (sep : str) (l : list str) : str :=
  match l with
  | [] => []
  | [x] => x
  | x :: r => x ++ sep ++ join sep r
  end.

(** [s.lstrip()], [s.rstrip()], [s.strip()]. *)
Fixpoint lstrip (s : str) : str :=
  match s with
  | [] => []
  | x :: r => if isspace x then lstrip r else s
  end.

Definition rstrip (s : str) : str := reverse (lstrip (reverse s)).

Definition strip (s : str) : str := rstrip (lstrip s).

(** [p in s] on strings: [p] occurs as a contiguous block of [s]. *)
Fixpoint startswith (p s : str) : bool :=
  match p, s with
  | [], _ => true
  | _ :: _, [] => false
  | a :: p', b :: s' => (a =? b) && startswith p' s'
  end.

Fixpoint contains (p s : str) : bool :=
  startswith p s ||
  match s with
  | [] => false
  | _ :: s' => contains p s'
  end.

(** [s.replace(a, b)] for one-character [a] and [b]. *)
Definition replace (a b : N) (s : str) : str :=
  map (λ x, if x =? a then b else x) s.

(** [l.remove(x)]: drops the first element equal to [x].  Python raises
    [ValueError] when there is none; the script only calls it under the
    guard [x in l[0:6]], so that case is left as the identity here (see
    [guard_in_list]). *)
Fixpoint list_remove (x : str) (l : list str) : list str :=
  match l with
  | [] => []
  | y :: r => if bool_decide (y = x) then r else y :: list_remove x r
  end.

(** [filter(None, l)] on strings keeps the non-empty ones. *)
Definition truthy (s : str) : bool :=
  match s with [] => false | _ :: _ => true end.

End Py.

Import Py.

(** ** The record normalizer and the writer: [convert_to_tsv] *)

(** One iteration of the removal loop (lines 47-49). *)
Definition remove_step (new_line_tokens : list str) (token : str) : list str :=
  if bool_decide (token ∈ take 6 new_line_tokens)
  then list_remove token new_line_tokens
  else new_line_tokens.

(** The body of the [for line in lines] loop (lines 41-53): the record
    built for one line. *)
Definition normalize_line (line : str) : list str :=
  let new_line_tokens := split line in
  let new_line_name_tokens := take 6 (split_on space line) in
  let new_line_name_tokens := List.filter truthy new_line_name_tokens in
  let name := join [space] new_line_name_tokens in
  let new_line_tokens := foldl remove_step new_line_tokens new_line_name_tokens in
  let res_line_tokens := [] in
  let res_line_tokens := res_line_tokens ++ [name] in
  let res_line_tokens := res_line_tokens ++ new_line_tokens in
  res_line_tokens.

(** Lines 31-54: [res_lines] after the loop over the lines of [text]. *)
Definition res_lines (text : str) : list (list str) :=
  let lines := split_on nl (strip text) in
  foldl (λ res_lines line, res_lines ++ [normalize_line line]) [] lines.

(** Lines 59-68: what the loop over [res_lines] hands to the file opened
    with mode ["w"].  [tsv_file.write] can raise (a character the file's
    encoding cannot encode gives [UnicodeEncodeError]); [write_raises]
    tells for which strings it does, and the [except: pass] of lines
    67-68 then goes on with the next record, nothing of the line having
    been written. *)
Definition write_records_in (write_raises : str → bool)
    (res_lines : list (list str)) : str :=
  foldl (λ tsv_file each,
           let res_line := join [tab] each in
           if write_raises (res_line ++ [nl])
           then tsv_file
           else tsv_file ++ (res_line ++ [nl]))
        [] res_lines.

(** The same loop when no write fails. *)
Definition write_records (res_lines : list (list str)) : str :=
  write_records_in (λ _, false) res_lines.

(** The path and the contents of the file [convert_to_tsv] leaves behind
    when nothing fails; [convert_to_tsv_in] below is the function with its
    failures.  The [print] of every line is left out. *)
Definition convert_to_tsv (filename text : str) : str * str :=
  (lit "results/" ++ filename ++ lit ".tsv", write_records (res_lines text)).

(** ** Exceptions and effects *)

(** The exceptions the script can meet. *)
Inductive exn :=
  | AttributeError   (* a method called on [None] *)
  | IndexError       (* [row[i]] out of range *)
  | KeyError         (* a missing attribute or header *)
  | TypeError        (* [None['href']] *)
  | ValueError       (* [int] of a string that is no number *)
  | RequestException (* anything [requests.get] raises *)
  | XMLSyntaxError   (* [etree.fromstring] on a body it cannot recover *)
  | OSError          (* [os.makedirs], [open] or the closing of a file *).

(** A computation returns a value or raises. *)
Inductive outcome (A : Type) :=
  | Ret (a : A)
  | Raise (e : exn).
Arguments Ret {A} a.
Arguments Raise {A} e.

#[export] Instance outcome_ret : MRet outcome := λ A a, Ret a.
#[export] Instance outcome_bind : MBind outcome := λ A B f m,
  match m with
  | Ret a => f a
  | Raise e => Raise e
  end.

(** [try: body except: handler] on a pure computation. *)
Definition try_pure {A} (body handler : outcome A) : outcome A :=
  match body with
  | Ret a => Ret a
  | Raise _ => handler
  end.

(** [l[i]]. *)
Definition index {A} (l : list A) (i : nat) : outcome A :=
  match l !! i with
  | Some x => Ret x
  | None => Raise IndexError
  end.

(** What the script does to the outside world, in the order it does it. *)
Inductive event :=
  | EvGet (URL : str)              (* [requests.get(URL)], body read *)
  | EvProbe (link : str)           (* [requests.get(link, stream=True)], headers only *)
  | EvWrite (path content : str)   (* a file opened with mode ["w"] and written *).

(** Effectful code threads the log of events and may raise. *)
Definition M (A : Type) : Type := list event → outcome A * list event.

#[export] Instance M_ret : MRet M := λ A a log, (Ret a, log).
#[export] Instance M_bind : MBind M := λ A B f m log,
  match m log with
  | (Ret a, log') => f a log'
  | (Raise e, log') => (Raise e, log')
  end.

Definition raise {A} (e : exn) : M A := λ log, (Raise e, log).
Definition lift {A} (o : outcome A) : M A := λ log, (o, log).
Definition emit (ev : event) : M unit := λ log, (Ret tt, log ++ [ev]).

(** [try: body except: handler]; the bare [except] catches everything. *)
Definition try_except {A} (body handler : M A) : M A := λ log,
  match body log with
  | (Ret a, log') => (Ret a, log')
  | (Raise _, log') => handler log'
  end.

(** A [for] loop that updates a local state. *)
Fixpoint for_each {A S} (body : S → A → M S) (s : S) (l : list A) : M S :=
  match l with
  | [] => mret s
  | x :: r => s' ← body s x; for_each body s' r
  end.

(** Runs a computation from the empty log. *)
Definition run {A} (m : M A) : outcome A * list event := m [].

(** ** The world outside the script *)

(** The text of a [Content-length] header, by what [int] makes of it. *)
Inductive header_value :=
  | Digits (n : Z)   (* [int] returns [n] *)
  | NotDigits        (* [int] raises [ValueError] *).

(** An [<a>] element: its [href] attribute, when it has one. *)
Record Tag := { attr_href : option str }.

(** A [<td>] cell: [cell.get_text()] and [cell.find('a')]. *)
Record Cell := { get_text : str; find_a : option Tag }.

(** A [<tr>] row: [row.find_all('td')]. *)
Record Tr := { find_all_td : list Cell }.

(** The HTTP server, the two parsers ([BeautifulSoup] with html5lib,
    lxml's recovering [XMLParser]) and the file system, which the script
    only calls. *)
Record World := {
  (** [requests.get(URL).content]; [None] when the request raises. *)
  http_content : str → option str;
  (** [requests.get(link, stream=True).headers['Content-length']]; [None]
      when the request raises or the header is missing. *)
  http_content_length : str → option header_value;
  (** [soup.find('table', {'class': 'tableFile2'})] of an index page, as
      the rows [table.findAll('tr')]; [None] when there is no such table. *)
  soup_tableFile2 : str → option (list Tr);
  (** [soup.find('table', {'class': 'tableFile'})] of a detail page, as
      the [href]s of [table.find_all('a', href=True)]. *)
  soup_tableFile : str → option (list str);
  (** [etree.fromstring(text_data, parser)]: it raises on a body from
      which nothing can be recovered (the empty one, for instance);
      otherwise [None] when it returns no tree, or
      [''.join(node.itertext())] of every node of [doc_tree.iter()] whose
      lower-cased tag is ["table"], in order. *)
  etree_fromstring : str → outcome (option (list str));
  (** Lines 55-57 on the path of a results file: whether [os.makedirs]
      (when the directory is missing) or [open(path, "w")] raises. *)
  open_raises : str → bool;
  (** Whether [tsv_file.write] raises on a string. *)
  write_raises : str → bool;
  (** Whether leaving the [with] block, which flushes and closes the
      file, raises. *)
  close_raises : str → bool
}.

(** The tables of the tree [etree.fromstring] returns; [None] when it
    returns no tree, and when it raises. *)
Definition etree_tables (w : World) (text_data : str) : option (list str) :=
  match etree_fromstring w text_data with
  | Ret doc_tree => doc_tree
  | Raise _ => None
  end.

(** ** [make_request] *)

(** [requests.get] refuses a URL without a scheme ([MissingSchema], a
    [RequestException]) before it connects; the script meets this with the
    empty URL. *)
Definition make_request (w : World) (URL : str) : M str :=
  _ ← emit (EvGet URL);
  match URL with
  | [] => raise RequestException
  | _ :: _ =>
      match http_content w URL with
      | Some data => mret data
      | None => raise RequestException
      end
  end.

(** ** The filing lister: [get_soup_contents] *)

Definition sec_gov : str := lit "https://www.sec.gov/".

(** A filing reference: the tuple [(doc_title, full_link, filing_date)]. *)
Definition FilingReference : Type := str * str * str.

(** The body of the [try] of lines 186-195: [Some tup] when the row is
    appended, [None] when the filter rejects it. *)
Definition row_body (filter_text : str) (row : list Cell)
  : outcome (option FilingReference) :=
  c0 ← index row 0;
  let doc_title := strip (get_text c0) in
  c3 ← index row 3;
  let filing_date := strip (get_text c3) in
  if contains filter_text doc_title then
    c1 ← index row 1;
    match find_a c1 with
    | None => Raise TypeError
    | Some a_content =>
        match attr_href a_content with
        | None => Raise KeyError
        | Some href =>
            let full_link := sec_gov ++ href in
            mret (Some (doc_title, full_link, filing_date))
        end
    end
  else mret None.

(** Lines 184-197: one row of the second loop, [except: pass] included. *)
Definition row_step (filter_text : str) (table_content : list FilingReference)
    (row : list Cell) : list FilingReference :=
  match try_pure (row_body filter_text row) (Ret None) with
  | Ret (Some tup) => table_content ++ [tup]
  | _ => table_content
  end.

(** [page] is [soup.find('table', {'class': 'tableFile2'})]. *)
Definition get_soup_contents_of (page : option (list Tr)) (filter_text : str)
  : outcome (list FilingReference) :=
  match page with
  | None => Raise AttributeError
  | Some rows =>
      let matrices_rows :=
        foldl (λ matrices_rows row, matrices_rows ++ [find_all_td row]) [] rows in
      Ret (foldl (row_step filter_text) [] matrices_rows)
  end.

Definition get_soup_contents (w : World) (page_data filter_text : str)
  : outcome (list FilingReference) :=
  get_soup_contents_of (soup_tableFile2 w page_data) filter_text.

(** ** The best-variant selector: [extract_data_from_text_files] *)

(** Lines 127-136: the loop over [inner_hrefs], which stops at the first
    href containing [.xml]; returns [(inner_links, xml_found)]. *)
Fixpoint collect_links (inner_hrefs : list str) (inner_links : list str)
  : list str * bool :=
  match inner_hrefs with
  | [] => (inner_links, false)
  | each :: rest =>
      if contains (lit ".xml") each then (inner_links ++ [sec_gov ++ each], true)
      else if contains (lit ".txt") each
           then collect_links rest (inner_links ++ [sec_gov ++ each])
           else collect_links rest inner_links
  end.

(** Lines 140-144: the probe of one link. *)
Definition probe_link (w : World) (link : str) : M (str * Z) :=
  content_length ←
    try_except
      (_ ← emit (EvProbe link);
       match http_content_length w link with
       | Some v => mret v
       | None => raise KeyError
       end)
      (mret (Digits 0));
  match content_length with
  | Digits n => mret (link, n)
  | NotDigits => raise ValueError
  end.

Definition smallest_start : Z := 1000000000000000000000000000.

(** Lines 147-150: one step of the search for the smallest length; the
    state is [(smallest, smallest_link)]. *)
Definition smallest_step (st : Z * str) (link_info : str * Z) : Z * str :=
  if (link_info.2 <? st.1)%Z then (link_info.2, link_info.1) else st.

Definition extract_data_from_text_files (w : World) (ticker_link : str)
  : M (option str) :=
  inner_page_data ← make_request w ticker_link;
  match soup_tableFile w inner_page_data with
  | None => raise AttributeError
  | Some inner_hrefs =>
      let '(inner_links, xml_found) := collect_links inner_hrefs [] in
      if negb xml_found then
        inner_links_info ← mapM (probe_link w) inner_links;
        let '(smallest, smallest_link) :=
          foldl smallest_step (smallest_start, []) inner_links_info in
        try_except
          (text_data ← make_request w smallest_link; mret (Some text_data))
          (mret None)
      else
        try_except
          (link ← lift (index inner_links 0);
           xml_data ← make_request w link;
           mret (Some xml_data))
          (mret None)
  end.

(** ** The table extractor: [extract_xml_content_from_text] *)

Definition filter_vals : list str :=
  [ lit "S REPORT SUMMARY";
    lit "FORM 13F INFORMATION TABLE";
    lit "SHARES/ SH/ PUT/ INVSTMT";
    lit "Total   ( " ].

Definition filter_found (line : str) : bool :=
  existsb (λ each, contains each line) filter_vals.

(** The function: line 75 is outside any [try], so what
    [etree.fromstring] raises leaves it. *)
Definition extract_xml_content_from_text_in (w : World) (text_data : str)
  : outcome (option str) :=
  doc_tree ← etree_fromstring w text_data;
  match doc_tree with
  | Some tables =>
      let xml_results :=
        foldl (λ xml_results vals,
                 let lines := split_on nl vals in
                 foldl (λ xml_results line,
                          if negb (filter_found line)
                          then xml_results ++ [line] else xml_results)
                       xml_results lines)
              [] tables in
      mret (Some (join [nl] xml_results))
  | None => mret None
  end.

(** Lines 76-102: what the function returns once [etree.fromstring] has
    returned. *)
Definition extract_xml_content_from_text (w : World) (text_data : str)
  : option str :=
  match etree_tables w text_data with
  | Some tables =>
      let xml_results :=
        foldl (λ xml_results vals,
                 let lines := split_on nl vals in
                 foldl (λ xml_results line,
                          if negb (filter_found line)
                          then xml_results ++ [line] else xml_results)
                       xml_results lines)
              [] tables in
      Some (join [nl] xml_results)
  | None => None
  end.

(** ** The writer with its failures: [convert_to_tsv] *)

(** [convert_to_tsv]: the records are built first; [os.makedirs] and
    [open] (lines 55-57) are outside any [try], so what they raise leaves
    the function before a file exists; the writes that raise are passed
    over; leaving the [with] block closes the file and can raise too. *)
Definition convert_to_tsv_in (w : World) (filename text : str) : M unit :=
  let res_lines := res_lines text in
  let path := lit "results/" ++ filename ++ lit ".tsv" in
  if open_raises w path then raise OSError
  else
    _ ← emit (EvWrite path (write_records_in (write_raises w) res_lines));
    if close_raises w path then raise OSError else mret tt.

(** ** The driver: [main] *)

Definition build_url (ticker_id : str) : str :=
  lit "https://www.sec.gov/cgi-bin/browse-edgar?CIK=" ++ ticker_id
  ++ lit "&Find=Search&owner=exclude&action=getcompany".

(** The body of the loop of lines 231-248; the state is
    [(xml_results, results_files)]. *)
Definition main_step (w : World) (ticker_id : str)
    (st : gmap str str * list str) (each : FilingReference)
  : M (gmap str str * list str) :=
  let '(xml_results, results_files) := st in
  let '(doc_title, doc_link, doc_filing_date) := each in
  text_data ← extract_data_from_text_files w doc_link;
  match text_data with
  | Some text_data =>
      xml_data ← lift (extract_xml_content_from_text_in w text_data);
      match xml_data with
      | Some xml_data =>
          let key := doc_title ++ lit "_" ++ ticker_id in
          let xml_results := <[key := xml_data]> xml_results in
          let filename :=
            ticker_id ++ lit "_" ++ doc_title ++ lit "_" ++ doc_filing_date
            ++ lit "_results" in
          let filename := replace slash dash filename in
          _ ← convert_to_tsv_in w filename (default [] (xml_results !! key));
          mret (xml_results, results_files ++ [filename ++ lit ".tsv"])
      | None => mret (xml_results, results_files)
      end
  | None => mret (xml_results, results_files)
  end.

(** [main]; the value is the list [results_files] it prints last, the
    other [print]s are left out. *)
Definition main (w : World) (ticker_id filter_text : str) : M (list str) :=
  let url := build_url ticker_id in
  page_data ← make_request w url;
  docs_contents ← lift (get_soup_contents w page_data filter_text);
  st ← for_each (main_step w ticker_id) (∅, []) docs_contents;
  mret st.2.


(** ** The specification's wording *)

Module Spec.

(** Step 4 of the record normalizer, as the specification words it: the
    name candidates are visited in order, and a candidate found among the
    first six tokens of the current list has one of its occurrences taken
    out of that list. [removal names toks final] relates the candidates,
    the token list before and the token list after. *)
Inductive removal : list str → list str → list str → Prop :=
  | removal_done toks :
      removal [] toks toks
  | removal_hit t names toks l1 l2 final :
      t ∈ take 6 toks →
      toks = l1 ++ t :: l2 →
      removal names (l1 ++ l2) final →
      removal (t :: names) toks final
  | removal_miss t names toks final :
      t ∉ take 6 toks →
      removal names toks final →
      removal (t :: names) toks final.

(** A whitespace token: not empty, and without a whitespace character. *)
Definition word (t : str) : Prop := t ≠ [] ∧ Forall (λ x, isspace x = false) t.

(** The line [a<TAB>b c], which has a tab inside its first single-space
    piece. *)
Definition tab_line : str := lit "a" ++ [tab] ++ lit "b c".

(** A line of holdings as the filings have them. *)
Definition mellon_line : str :=
  lit "MELLON FINANCIAL CORP   COM   58551A108   1234   100 SH".


End Spec.

(** ** The specification's wording, continued: lister and selector *)

Module SpecWeb.

(** [p] occurs in [s], case-sensitively: [s] is [p] between two strings. *)
Definition occurs_in (p s : str) : Prop := ∃ pre post, s = pre ++ p ++ post.

(** Section 4.1: the reference a row holds when it has the expected
    columns: the title of column 0, the link of the anchor of column 1,
    the filing date of column 3. *)
Definition row_reference (row : Tr) : option FilingReference :=
  c0 ← find_all_td row !! 0%nat;
  c1 ← find_all_td row !! 1%nat;
  c3 ← find_all_td row !! 3%nat;
  a ← find_a c1;
  href ← attr_href a;
  Some (strip (get_text c0), sec_gov ++ href, strip (get_text c3)).

(** The reference of a row, kept only when its title has the filter. *)
Definition listed (filter_text : str) (row : Tr) : option FilingReference :=
  ref ← row_reference row;
  if contains filter_text ref.1.1 then Some ref else None.

(** Section 4.2: the plain-text candidates of a detail page, in the order
    of the page. *)
Definition text_candidates (inner_hrefs : list str) : list str :=
  map (λ href, sec_gov ++ href) (List.filter (contains (lit ".txt")) inner_hrefs).

(** The length a probe reports: zero when it cannot be determined, none
    when the header is no number. *)
Definition reported_length (w : World) (link : str) : option Z :=
  match http_content_length w link with
  | None => Some 0%Z
  | Some (Digits n) => Some n
  | Some NotDigits => None
  end.

Definition length_of (w : World) (link : str) : Z :=
  default 0%Z (reported_length w link).

End SpecWeb.

(** ** Concrete worlds *)

Module Examples.

(** A table of answers, searched by key. *)
Definition assoc {A} (table : list (str * A)) (key : str) : option A :=
  snd <$> List.find (λ kv, bool_decide (kv.1 = key)) table.

Definition world_of (contents : list (str * str))
    (lengths : list (str * header_value))
    (indexes : list (str * list Tr))
    (details : list (str * list str))
    (trees : list (str * list str)) : World :=
  {| http_content := assoc contents;
     http_content_length := assoc lengths;
     soup_tableFile2 := assoc indexes;
     soup_tableFile := assoc details;
     etree_fromstring := λ text_data, Ret (assoc trees text_data);
     open_raises := λ _, false;
     write_raises := λ _, false;
     close_raises := λ _, false |}.

Definition detail_link : str := lit "https://www.sec.gov//Archives/1-index.htm".
Definition detail_page : str := lit "<html>filing 1</html>".

Definition link_of (href : string) : str := sec_gov ++ lit href.

(** Two text files, of 12000 and of 500 bytes, and no XML file. *)
Definition two_texts_world : World :=
  world_of
    [ (detail_link, detail_page);
      (link_of "/Archives/signed.txt", lit "-----BEGIN PRIVACY-ENHANCED MESSAGE-----");
      (link_of "/Archives/plain.txt", lit "<TABLE>holdings</TABLE>") ]
    [ (link_of "/Archives/signed.txt", Digits 12000);
      (link_of "/Archives/plain.txt", Digits 500) ]
    []
    [ (detail_page, [lit "/Archives/signed.txt"; lit "/Archives/plain.txt"]) ]
    [].

(** One text file whose reported length is the starting value of the
    search. *)
Definition huge_text_world : World :=
  world_of
    [ (detail_link, detail_page);
      (link_of "/Archives/plain.txt", lit "<TABLE>holdings</TABLE>") ]
    [ (link_of "/Archives/plain.txt", Digits smallest_start) ]
    []
    [ (detail_page, [lit "/Archives/plain.txt"]) ]
    [].

(** A text file listed before the XML file. *)
Definition text_before_xml_world : World :=
  world_of
    [ (detail_link, detail_page);
      (link_of "/Archives/submission.txt", lit "complete submission text");
      (link_of "/Archives/infotable.xml", lit "<informationTable/>") ]
    []
    []
    [ (detail_page, [lit "/Archives/submission.txt"; lit "/Archives/infotable.xml"]) ]
    [].

(** A detail page whose table links neither an XML nor a text file. *)
Definition no_candidate_world : World :=
  world_of
    [ (detail_link, detail_page) ]
    []
    []
    [ (detail_page, [lit "/Archives/primary_doc.htm"]) ]
    [].

(** A detail page that cannot be fetched. *)
Definition unreachable_world : World := world_of [] [] [] [] [].

Definition ticker_id : str := lit "0001166559".
Definition index_page : str := lit "<html>index</html>".

Definition filing_row (href : string) (date : string) : Tr :=
  {| find_all_td :=
       [ {| get_text := lit "13F-HR"; find_a := None |};
         {| get_text := lit " Documents";
            find_a := Some {| attr_href := Some (lit href) |} |};
         {| get_text := lit "Quarterly report"; find_a := None |};
         {| get_text := lit date; find_a := None |} ] |}.

(** An index of two filings, each with an XML file that holds one table.
    [first_page] is what the server answers for the detail page of the
    first filing. *)
Definition two_filings_world (first_page : str) : World :=
  world_of
    [ (build_url ticker_id, index_page);
      (detail_link, first_page);
      (link_of "/Archives/2-index.htm", lit "<html>filing 2</html>");
      (link_of "/Archives/1.xml", lit "<xml>1</xml>");
      (link_of "/Archives/2.xml", lit "<xml>2</xml>") ]
    []
    [ (index_page, [ filing_row "/Archives/1-index.htm" "2006-05-15";
                     filing_row "/Archives/2-index.htm" "2006-02-14" ]) ]
    [ (detail_page, [lit "/Archives/1.xml"]);
      (lit "<html>filing 2</html>", [lit "/Archives/2.xml"]) ]
    [ (lit "<xml>1</xml>", [Spec.mellon_line]);
      (lit "<xml>2</xml>", [Spec.mellon_line]) ].

(** The answer of a server that refuses the request: a page without the
    documents table. *)
Definition refusal_page : str := lit "<html>Request Rate Threshold Exceeded</html>".

End Examples.

(** ** Reading the results back *)

Module Readback.


(** The paths of the files a log of events writes, in order. *)
Definition written_paths (log : list event) : list str :=
  omap (λ ev, match ev with EvWrite path _ => Some path | _ => None end) log.

(** A string that neither starts nor ends with a whitespace character. *)
Definition stripped (s : str) : Prop :=
  match s with
  | [] => True
  | x :: _ => isspace x = false
  end
  ∧ match last s with
    | None => True
    | Some x => isspace x = false
    end.

(** A text block of two holdings lines, padded with blank lines. *)
Definition padded_text : str :=
  [nl; space] ++ Spec.mellon_line ++ [nl]
  ++ lit "AT&T INC   COM   00206R102   77   3 SH" ++ [nl; tab; nl].

(** A detail page with one text file whose [Content-length] is no number. *)
Definition bad_header_world : World :=
  Examples.world_of
    [ (Examples.detail_link, Examples.detail_page);
      (Examples.link_of "/Archives/plain.txt", lit "<TABLE>holdings</TABLE>") ]
    [ (Examples.link_of "/Archives/plain.txt", NotDigits) ]
    []
    [ (Examples.detail_page, [lit "/Archives/plain.txt"]) ]
    [].

(** An index page without the filings table, as an unknown identifier
    gets, and an index page whose only filing is no 13F. *)
Definition index_worlds (rows : option (list Tr)) : World :=
  {| http_content := Examples.assoc [(build_url Examples.ticker_id, Examples.index_page)];
     http_content_length := λ _, None;
     soup_tableFile2 := λ _, rows;
     soup_tableFile := λ _, None;
     etree_fromstring := λ _, Ret None;
     open_raises := λ _, false;
     write_raises := λ _, false;
     close_raises := λ _, false |}.

(** A document with two tables, with header lines among the holdings. *)
Definition tables_world : World :=
  Examples.world_of [] [] [] []
    [ (lit "<xml/>",
       [ lit "FORM 13F INFORMATION TABLE" ++ [nl] ++ Spec.mellon_line;
         lit "AT&T INC   COM" ++ [nl] ++ lit "Total   ( 2 items )" ]) ].

(** Two text files: the first cannot be probed, the second reports 500
    bytes. *)
Definition unprobed_world : World :=
  Examples.world_of
    [ (Examples.detail_link, Examples.detail_page);
      (Examples.link_of "/Archives/plain.txt", lit "<TABLE>holdings</TABLE>") ]
    [ (Examples.link_of "/Archives/plain.txt", Digits 500) ]
    []
    [ (Examples.detail_page, [lit "/Archives/gone.txt"; lit "/Archives/plain.txt"]) ]
    [].

(** Two text files: the first reports 12000 bytes, the [Content-length]
    of the second is no number. *)
Definition non_numeric_world : World :=
  Examples.world_of
    [ (Examples.detail_link, Examples.detail_page);
      (Examples.link_of "/Archives/signed.txt", lit "-----BEGIN PRIVACY-ENHANCED MESSAGE-----");
      (Examples.link_of "/Archives/plain.txt", lit "<TABLE>holdings</TABLE>") ]
    [ (Examples.link_of "/Archives/signed.txt", Digits 12000);
      (Examples.link_of "/Archives/plain.txt", NotDigits) ]
    []
    [ (Examples.detail_page, [lit "/Archives/signed.txt"; lit "/Archives/plain.txt"]) ]
    [].

(** A lone surrogate, which UTF-8 cannot encode. *)
Definition surrogate (c : N) : bool := (55296 <=? c) && (c <=? 57343).

(** A file system whose files are UTF-8: a write raises on a string with
    a lone surrogate; opening and closing never fail. *)
Definition utf8_world : World :=
  {| http_content := λ _, None;
     http_content_length := λ _, None;
     soup_tableFile2 := λ _, None;
     soup_tableFile := λ _, None;
     etree_fromstring := λ _, Ret None;
     open_raises := λ _, false;
     write_raises := existsb surrogate;
     close_raises := λ _, false |}.

(** Two lines without tabs, the first with a lone surrogate. *)
Definition surrogate_text : str :=
  lit "p" ++ [55296] ++ lit "q r" ++ [nl] ++ lit "plain s".

(** The index of two filings where the body of the first filing's XML
    file is empty, on which [etree.fromstring] raises. *)
Definition empty_body_world : World :=
  {| http_content :=
       Examples.assoc
         [ (build_url Examples.ticker_id, Examples.index_page);
           (Examples.detail_link, Examples.detail_page);
           (Examples.link_of "/Archives/2-index.htm", lit "<html>filing 2</html>");
           (Examples.link_of "/Archives/1.xml", []);
           (Examples.link_of "/Archives/2.xml", lit "<xml>2</xml>") ];
     http_content_length := λ _, None;
     soup_tableFile2 :=
       Examples.assoc
         [ (Examples.index_page,
            [ Examples.filing_row "/Archives/1-index.htm" "2006-05-15";
              Examples.filing_row "/Archives/2-index.htm" "2006-02-14" ]) ];
     soup_tableFile :=
       Examples.assoc
         [ (Examples.detail_page, [lit "/Archives/1.xml"]);
           (lit "<html>filing 2</html>", [lit "/Archives/2.xml"]) ];
     etree_fromstring := λ text_data,
       match text_data with
       | [] => Raise XMLSyntaxError
       | _ :: _ => Ret (Some [Spec.mellon_line])
       end;
     open_raises := λ _, false;
     write_raises := λ _, false;
     close_raises := λ _, false |}.

End Readback.

(** ** The builtins behave as Python's *)

Section builtins.
Implicit Types (s p a b : str) (c x w : N) (l : list str).

Lemma split_on_cons c x s :
  split_on c (x :: s)
  = if x =? c then [] :: split_on c s else cons_hd x (split_on c s).
Proof. reflexivity. Qed.

Lemma split_cons x s :
  split (x :: s)
  = if isspace x then split s
    else match s with
         | [] => [[x]]
         | y :: _ => if isspace y then [x] :: split s else cons_hd x (split s)
         end.
Proof. reflexivity. Qed.

Example split_on_keeps_empty_pieces :
  split_on space (lit "a  b ") = [lit "a"; []; lit "b"; []].
Proof. reflexivity. Qed.

Example split_drops_whitespace_runs :
  split (space :: tab :: lit "a  b" ++ [tab; nl] ++ lit "c ") = [lit "a"; lit "b"; lit "c"].
Proof. reflexivity. Qed.

Example strip_both_ends :
  strip (nl :: space :: lit "a b" ++ [tab; nl]) = lit "a b".
Proof. reflexivity. Qed.

Example join_with_tab : join [tab] [lit "a b"; lit "c"] = lit "a b" ++ tab :: lit "c".
Proof. reflexivity. Qed.

Lemma split_on_not_nil c s : split_on c s ≠ [].
Proof.
  destruct s as [|x s]; [done|]. rewrite split_on_cons.
  destruct (x =? c); [done|]. by destruct (split_on c s).
Qed.

(** Joining the pieces with the separator gives the string back. *)
Lemma join_split_on c s : join [c] (split_on c s) = s.
Proof.
  induction s as [|x s IH]; [done|]. rewrite split_on_cons.
  destruct (N.eqb_spec x c) as [->|Hne].
  - pose proof (split_on_not_nil c s) as Hnil.
    destruct (split_on c s) as [|h t] eqn:E; [done|].
    change (join [c] ([] :: h :: t)) with ([] ++ [c] ++ join [c] (h :: t)).
    by rewrite IH.
  - pose proof (split_on_not_nil c s) as Hnil.
    destruct (split_on c s) as [|h t] eqn:E; [done|]. simpl cons_hd.
    destruct t as [|h' t]; simpl in *; by rewrite <- IH.
Qed.

(** No piece contains the separator, and every piece is made of
    characters of the string. *)
Lemma split_on_pieces c s p :
  p ∈ split_on c s → (c ∉ p) ∧ (∀ x, x ∈ p → x ∈ s).
Proof.
  revert p. induction s as [|x s IH]; intros p Hp.
  - apply list_elem_of_singleton in Hp as ->. split; [apply not_elem_of_nil|done].
  - rewrite split_on_cons in Hp. destruct (N.eqb_spec x c) as [->|Hne].
    + apply elem_of_cons in Hp as [->|Hp].
      * split; [apply not_elem_of_nil|]. intros y Hy. by apply elem_of_nil in Hy.
      * destruct (IH _ Hp) as [? Hsub]. split; [done|].
        intros y Hy. right. by apply Hsub.
    + pose proof (split_on_not_nil c s) as Hnil.
      destruct (split_on c s) as [|h t] eqn:E; [done|]. simpl in Hp.
      apply elem_of_cons in Hp as [->|Hp].
      * destruct (IH h) as [Hc Hsub]; [left|].
        split.
        -- intros [?|?]%elem_of_cons; [congruence|done].
        -- intros y [->|Hy]%elem_of_cons; [left|right; by apply Hsub].
      * destruct (IH p) as [Hc Hsub]; [by right|]. split; [done|].
        intros y Hy. right. by apply Hsub.
Qed.

(** A string without the separator is a single piece. *)
Lemma split_on_single c s : c ∉ s → split_on c s = [s].
Proof.
  induction s as [|x s IH]; [done|]. intros Hc.
  rewrite split_on_cons. destruct (N.eqb_spec x c) as [->|Hne].
  - exfalso. apply Hc. left.
  - rewrite IH; [done|]. intros ?. apply Hc. by right.
Qed.

(** The first separator ends the first piece. *)
Lemma split_on_app c s1 s2 :
  c ∉ s1 → split_on c (s1 ++ c :: s2) = s1 :: split_on c s2.
Proof.
  induction s1 as [|x s1 IH]; intros Hc.
  - simpl. by rewrite N.eqb_refl.
  - rewrite <- app_comm_cons, split_on_cons.
    destruct (N.eqb_spec x c) as [->|Hne].
    + exfalso. apply Hc. left.
    + rewrite IH; [done|]. intros ?. apply Hc. by right.
Qed.

Lemma split_nonspace_not_nil x s : isspace x = false → split (x :: s) ≠ [].
Proof.
  intros Hx. rewrite split_cons, Hx. destruct s as [|y s]; [done|].
  destruct (isspace y); [done|]. by destruct (split (y :: s)).
Qed.

(** A whitespace character separates: the tokens on its two sides are
    found independently. *)
Lemma split_app_space a w b :
  isspace w = true → split (a ++ w :: b) = split a ++ split b.
Proof.
  intros Hw. induction a as [|x a IH].
  - simpl app. by rewrite split_cons, Hw.
  - rewrite <- app_comm_cons, !(split_cons x).
    destruct (isspace x) eqn:Hx; [done|].
    destruct a as [|y a].
    + change ([] ++ w :: b) with (w :: b). cbv iota. change (split (w :: b) = split b) in IH. by rewrite Hw, IH.
    + rewrite <- app_comm_cons. cbv iota.
      rewrite app_comm_cons, IH. destruct (isspace y) eqn:Hy; [done|].
      pose proof (split_nonspace_not_nil y a Hy).
      by destruct (split (y :: a)).
Qed.

(** Every token is non-empty, free of whitespace and made of characters
    of the string. *)
Lemma split_tokens s p :
  p ∈ split s → p ≠ [] ∧ (∀ x, x ∈ p → isspace x = false ∧ x ∈ s).
Proof.
  revert p. induction s as [|x s IH]; intros p Hp.
  - by apply elem_of_nil in Hp.
  - rewrite split_cons in Hp. destruct (isspace x) eqn:Hx.
    + destruct (IH _ Hp) as [? Hsub]. split; [done|].
      intros y Hy. destruct (Hsub y Hy). split; [done|by right].
    + destruct s as [|y s].
      * apply list_elem_of_singleton in Hp as ->. split; [done|].
        intros z ->%list_elem_of_singleton. split; [done|left].
      * destruct (isspace y) eqn:Hy.
        -- apply elem_of_cons in Hp as [->|Hp].
           ++ split; [done|]. intros z ->%list_elem_of_singleton. split; [done|left].
           ++ destruct (IH _ Hp) as [? Hsub]. split; [done|].
              intros z Hz. destruct (Hsub z Hz). split; [done|by right].
        -- pose proof (split_nonspace_not_nil y s Hy).
           destruct (split (y :: s)) as [|h t] eqn:E; [done|]. simpl in Hp.
           apply elem_of_cons in Hp as [->|Hp].
           ++ destruct (IH h) as [? Hsub]; [left|]. split; [done|].
              intros z [->|Hz]%elem_of_cons; [split; [done|left]|].
              destruct (Hsub z Hz). split; [done|by right].
           ++ destruct (IH p) as [? Hsub]; [by right|]. split; [done|].
              intros z Hz. destruct (Hsub z Hz). split; [done|by right].
Qed.

(** A non-empty word without whitespace is its own single token. *)
Lemma split_word s :
  Forall (λ x, isspace x = false) s → split s = if truthy s then [s] else [].
Proof.
  induction s as [|x s IH]; [done|]. intros [Hx Hs]%Forall_cons.
  rewrite split_cons, Hx. destruct s as [|y s]; [done|].
  apply Forall_cons in Hs as Hs'. destruct Hs' as [Hy _].
  rewrite Hy, (IH Hs). done.
Qed.

(** Splitting a string joined by a whitespace character splits every
    part on its own. *)
Lemma split_join w l :
  isspace w = true → split (join [w] l) = concat (map split l).
Proof.
  intros Hw. induction l as [|p l IH]; [done|].
  destruct l as [|q l].
  - simpl. by rewrite app_nil_r.
  - change (join [w] (p :: q :: l)) with (p ++ w :: join [w] (q :: l)).
    rewrite split_app_space, IH; done.
Qed.
End builtins.

(** ** The record normalizer *)

Section normalizer.
Implicit Types (line text t : str) (toks names : list str).

Lemma elem_of_take_elem (n : nat) t toks : t ∈ take n toks → t ∈ toks.
Proof.
  intros (i & Hi & _)%elem_of_take. by eapply list_elem_of_lookup_2.
Qed.

Lemma list_remove_first t toks :
  t ∈ toks →
  ∃ l1 l2, toks = l1 ++ t :: l2 ∧ (t ∉ l1) ∧ list_remove t toks = l1 ++ l2.
Proof.
  induction toks as [|y toks IH]; intros Hin; [by apply elem_of_nil in Hin|].
  simpl. case_bool_decide as Hy.
  - subst y. exists [], toks. split_and!; [done|apply not_elem_of_nil|done].
  - apply elem_of_cons in Hin as [->|Hin]; [done|].
    destruct (IH Hin) as (l1 & l2 & -> & Hl1 & ->).
    exists (y :: l1), l2. split_and!; [done| |done].
    intros [?|?]%elem_of_cons; [congruence|done].
Qed.

(** Under the guard of line 48 the token is in the list, so [remove]
    finds it: it takes out the first occurrence and nothing else. *)
Lemma guard_in_list t toks :
  t ∈ take 6 toks →
  ∃ l1 l2, toks = l1 ++ t :: l2 ∧ (t ∉ l1) ∧ list_remove t toks = l1 ++ l2.
Proof. intros Hin. eapply list_remove_first, elem_of_take_elem, Hin. Qed.

Lemma list_remove_sublist t toks : list_remove t toks `sublist_of` toks.
Proof.
  induction toks as [|y toks IH]; [done|]. simpl. case_bool_decide.
  - by apply sublist_cons.
  - by apply sublist_skip.
Qed.

Lemma remove_step_sublist toks t : remove_step toks t `sublist_of` toks.
Proof.
  unfold remove_step. case_bool_decide; [apply list_remove_sublist|done].
Qed.

Lemma remove_loop_sublist names toks :
  foldl remove_step toks names `sublist_of` toks.
Proof.
  revert toks. induction names as [|t names IH]; intros toks; [done|].
  simpl. etrans; [apply IH|apply remove_step_sublist].
Qed.

(** The loop of lines 47-49 is a run of the specification's step 4. *)
Lemma remove_loop_removal names toks :
  Spec.removal names toks (foldl remove_step toks names).
Proof.
  revert toks. induction names as [|t names IH]; intros toks.
  - apply Spec.removal_done.
  - simpl. unfold remove_step at 2. case_bool_decide as Hin.
    + destruct (guard_in_list _ _ Hin) as (l1 & l2 & Htoks & _ & ->).
      eapply Spec.removal_hit; [done..|apply IH].
    + apply Spec.removal_miss; [done|apply IH].
Qed.

Lemma filter_truthy (l : list str) :
  List.filter truthy l = filter (λ t : str, t ≠ []) l.
Proof.
  induction l as [|[|x t] l IH]; [done|..]; simpl.
  - rewrite filter_cons_False; [done|]. by intros ?.
  - rewrite filter_cons_True; [|done]. by rewrite IH.
Qed.

Lemma normalize_line_eq line :
  normalize_line line
  = join [space] (List.filter truthy (take 6 (split_on space line)))
    :: foldl remove_step (split line)
         (List.filter truthy (take 6 (split_on space line))).
Proof. reflexivity. Qed.

Example normalize_mellon :
  normalize_line Spec.mellon_line
  = [lit "MELLON FINANCIAL CORP COM"; lit "58551A108"; lit "1234"; lit "100"; lit "SH"].
Proof. vm_compute. reflexivity. Qed.

(** The loop that builds [res_lines] makes one record per line. *)
Lemma foldl_snoc_map {A B} (f : A → B) (l : list A) (acc : list B) :
  foldl (λ acc x, acc ++ [f x]) acc l = acc ++ map f l.
Proof.
  revert acc. induction l as [|x l IH]; intros acc; simpl.
  - by rewrite app_nil_r.
  - by rewrite IH, <- app_assoc.
Qed.

Lemma res_lines_map text :
  res_lines text = map normalize_line (split_on nl (strip text)).
Proof. unfold res_lines. by rewrite foldl_snoc_map. Qed.

Lemma split_replicate_space (n : nat) : split (replicate n space) = [].
Proof. induction n as [|n IH]; [done|]. simpl replicate. by rewrite split_cons. Qed.

Lemma split_on_replicate (n : nat) (c : N) :
  split_on c (replicate n c) = replicate (S n) [].
Proof.
  induction n as [|n IH]; [done|]. simpl replicate.
  by rewrite split_on_cons, N.eqb_refl, IH.
Qed.

Lemma filter_truthy_replicate (n : nat) : List.filter truthy (replicate n []) = [].
Proof. induction n as [|n IH]; [done|]. done. Qed.

(** C1.  On every line the record normalizer does what section 4.4 of
    the specification lists: the name candidates are the non-empty ones
    among the first six pieces of the line split at single spaces; the
    name is the candidates joined by single spaces, in order; the
    whitespace tokens go through step 4, where a candidate found among
    the first six tokens of the list loses exactly one occurrence in it;
    and the record is the name followed by the tokens that are left, in
    the order they had in the line. *)
Theorem normalize_line_algorithm line :
  let nameCandidates := filter (λ t : str, t ≠ []) (take 6 (split_on space line)) in
  let allTokens := split line in
  ∃ remaining,
    normalize_line line = join [space] nameCandidates :: remaining
    ∧ Spec.removal nameCandidates allTokens remaining
    ∧ remaining `sublist_of` allTokens.
Proof.
  intros nameCandidates allTokens.
  exists (foldl remove_step allTokens nameCandidates). subst nameCandidates allTokens.
  rewrite normalize_line_eq, filter_truthy. split_and!.
  - done.
  - apply remove_loop_removal.
  - apply remove_loop_sublist.
Qed.

(** C8, as the code has it.  The text block is stripped of leading and
    trailing whitespace first; then every line of what is left gives
    exactly one record, in order.  A line that is empty or made of
    space characters only gives the record whose single field is the
    empty name. *)
Theorem one_record_per_stripped_line text (n : nat) :
  res_lines text = map normalize_line (split_on nl (strip text))
  ∧ length (res_lines text) = length (split_on nl (strip text))
  ∧ normalize_line (replicate n space) = [[]].
Proof.
  split_and!.
  - apply res_lines_map.
  - by rewrite res_lines_map, length_map.
  - rewrite normalize_line_eq, split_on_replicate, take_replicate.
    by rewrite filter_truthy_replicate, split_replicate_space.
Qed.

(** C8 fails as stated: a leading blank line of the text block gets no
    record, and a line holding a single tab gets the tab as its name. *)
Lemma blank_lines_counterexample :
  let text := nl :: lit "A" in
  (split_on nl text = [[]; lit "A"]
   ∧ res_lines text = [[lit "A"]]
   ∧ length (res_lines text) ≠ length (split_on nl text))
  ∧ (split [tab] = []
     ∧ normalize_line [tab] = [[tab]]
     ∧ normalize_line [tab] ≠ [[]]).
Proof. vm_compute. split_and!; done. Qed.
End normalizer.

(** ** Splitting a record again *)

Section resplit.
Implicit Types (line t : str) (toks names : list str).

Lemma split_is_words line : Forall Spec.word (split line).
Proof.
  apply Forall_forall. intros p Hp. destruct (split_tokens _ _ Hp) as [Hne Hch].
  split; [done|]. apply Forall_forall. intros x Hx. by destruct (Hch x Hx).
Qed.


(** Pieces without whitespace are tokens, except the empty ones. *)
Lemma concat_split_pieces (pieces : list str) :
  Forall (Forall (λ x, isspace x = false)) pieces →
  concat (map split pieces) = List.filter truthy pieces.
Proof.
  induction 1 as [|t pieces Hws _ IH]; [done|]. simpl.
  rewrite (split_word _ Hws), IH. by destruct t.
Qed.


(** When the candidates are the front of the token list, the loop of
    lines 47-49 takes off exactly that front. *)
Lemma remove_loop_front names toks :
  foldl remove_step (names ++ toks) names = toks.
Proof.
  induction names as [|t names IH]; [done|]. simpl.
  unfold remove_step at 2. rewrite bool_decide_true by left.
  simpl. by rewrite bool_decide_true.
Qed.

Lemma split_line_by_pieces line :
  split line
  = concat (map split (take 6 (split_on space line)))
    ++ concat (map split (drop 6 (split_on space line))).
Proof.
  rewrite <- concat_app, <- map_app, take_drop.
  rewrite <- (split_join space) by done. by rewrite join_split_on.
Qed.




End resplit.

(** ** The writer *)

Section writer.
Implicit Types (line text t : str) (each : list str) (records : list (list str)).

Lemma write_records_concat records :
  write_records records = concat (map (λ each, join [tab] each ++ [nl]) records).
Proof.
  unfold write_records.
  enough (∀ file : str,
    foldl (λ tsv_file each, tsv_file ++ (join [tab] each ++ [nl])) file records
    = file ++ concat (map (λ each, join [tab] each ++ [nl]) records)) as H
    by apply (H []).
  induction records as [|each records IH]; intros file; simpl.
  - by rewrite app_nil_r.
  - by rewrite IH, <- app_assoc.
Qed.

(** A file of newline-terminated lines, none of which holds a newline,
    splits at the newlines into those lines and the empty rest. *)
Lemma split_on_terminated_lines (written : list str) :
  Forall (λ l, nl ∉ l) written →
  split_on nl (concat (map (λ l, l ++ [nl]) written)) = written ++ [[]].
Proof.
  induction 1 as [|l written Hl _ IH]; [done|]. simpl.
  rewrite <- app_assoc. simpl. by rewrite split_on_app, IH.
Qed.

Lemma elem_of_join x (sep : str) (l : list str) :
  x ∈ join sep l → x ∈ sep ∨ ∃ p, p ∈ l ∧ x ∈ p.
Proof.
  induction l as [|p l IH]; [by intros ?%elem_of_nil|].
  destruct l as [|q l].
  - simpl. intros Hx. right. exists p. split; [left|done].
  - change (join sep (p :: q :: l)) with (p ++ sep ++ join sep (q :: l)).
    intros [Hx|[Hx|Hx]%elem_of_app]%elem_of_app.
    + right. exists p. split; [left|done].
    + by left.
    + destruct (IH Hx) as [?|(p' & Hp' & ?)]; [by left|].
      right. exists p'. split; [by right|done].
Qed.

Lemma elem_of_filter_truthy (p : str) (l : list str) :
  p ∈ List.filter truthy l → p ∈ l.
Proof. rewrite !list_elem_of_In. by intros [? _]%filter_In. Qed.

(** The characters of a field come from the line, or are the spaces that
    join the name. *)
Lemma normalize_line_chars line field x :
  field ∈ normalize_line line → x ∈ field → x = space ∨ x ∈ line.
Proof.
  rewrite normalize_line_eq. intros [->|Hf]%elem_of_cons Hx.
  - apply elem_of_join in Hx as [->%list_elem_of_singleton|(p & Hp & Hx)]; [by left|].
    right. apply elem_of_filter_truthy, elem_of_take_elem in Hp.
    destruct (split_on_pieces _ _ _ Hp) as [_ Hsub]. by apply Hsub.
  - right. eapply elem_of_sublist in Hf; [|apply remove_loop_sublist].
    destruct (split_tokens _ _ Hf) as [_ Hch]. by destruct (Hch x Hx).
Qed.

Lemma record_without_newline text each :
  each ∈ res_lines text → nl ∉ join [tab] each.
Proof.
  rewrite res_lines_map. intros (line & -> & Hline)%list_elem_of_fmap.
  destruct (split_on_pieces _ _ _ Hline) as [Hnl _].
  intros [Hx%list_elem_of_singleton|(field & Hf & Hx)]%elem_of_join; [done|].
  by destruct (normalize_line_chars _ _ _ Hf Hx).
Qed.

(** C7.  Whatever text [convert_to_tsv] is given, the file it writes is
    the records written one after the other, each as its fields joined by
    tabs and closed by a newline; no written record holds a newline, so
    the file has exactly one line per record. *)
Theorem written_file_lines (filename text : str) :
  let records := res_lines text in
  let file := (convert_to_tsv filename text).2 in
  file = concat (map (λ each, join [tab] each ++ [nl]) records)
  ∧ Forall (λ each, nl ∉ join [tab] each) records
  ∧ split_on nl file = map (join [tab]) records ++ [[]]
  ∧ length (split_on nl file) = S (length records).
Proof.
  intros records file.
  assert (Forall (λ each, nl ∉ join [tab] each) records) as Hnl.
  { apply Forall_forall. intros each. apply record_without_newline. }
  assert (file = concat (map (λ each, join [tab] each ++ [nl]) records)) as Hfile.
  { apply write_records_concat. }
  assert (split_on nl file = map (join [tab]) records ++ [[]]) as Hsplit.
  { rewrite Hfile.
    rewrite <- (split_on_terminated_lines (map (join [tab]) records)).
    - by rewrite map_map.
    - by apply Forall_fmap. }
  split_and!; [done..|].
  rewrite Hsplit, length_app, length_map. simpl. lia.
Qed.

(** The pieces of a split are one more than the separators. *)
Lemma length_split_on c (s : str) :
  length (split_on c s) = S (length (filter (λ x, x = c) s)).
Proof.
  induction s as [|x s IH]; [done|]. rewrite split_on_cons.
  destruct (N.eqb_spec x c) as [->|Hne].
  - rewrite filter_cons_True by done. simpl. by rewrite IH.
  - rewrite filter_cons_False by done.
    pose proof (split_on_not_nil c s). by destruct (split_on c s).
Qed.

Lemma separators_of_join c (p : str) each :
  length (filter (λ x, x = c) (join [c] (p :: each)))
  = (length (filter (λ x, x = c) p)
     + length (filter (λ x, x = c) (concat each)) + length each)%nat.
Proof.
  revert p. induction each as [|q each IH]; intros p.
  - simpl. lia.
  - change (join [c] (p :: q :: each)) with (p ++ c :: join [c] (q :: each)).
    rewrite filter_app, filter_cons_True, length_app by done.
    cbn [length concat]. rewrite IH, filter_app, length_app. lia.
Qed.

(** Every tab inside the first field is one more column in the written
    line. *)
Lemma tab_in_name_more_columns (name : str) (rest : list str) :
  tab ∈ name →
  (length (name :: rest) < length (split_on tab (join [tab] (name :: rest))))%nat.
Proof.
  intros Hin. rewrite length_split_on, separators_of_join. simpl.
  assert (0 < length (filter (λ x, x = tab) name))%nat; [|lia].
  apply list_elem_of_split in Hin as (l1 & l2 & ->).
  rewrite filter_app, filter_cons_True, length_app by done. simpl. lia.
Qed.

(** C9.  There is a line with a tab inside one of its first six
    single-space pieces whose record has a tab inside the name, so that
    the line written for it has more tab-separated columns than the
    record has fields. *)
Theorem tab_in_name_adds_columns :
  ∃ line name rest,
    (∃ piece, piece ∈ take 6 (split_on space line) ∧ tab ∈ piece)
    ∧ normalize_line line = name :: rest
    ∧ tab ∈ name
    ∧ length (name :: rest) = 3%nat
    ∧ length (split_on tab (join [tab] (name :: rest))) = 4%nat
    ∧ (length (name :: rest)
       < length (split_on tab (join [tab] (name :: rest))))%nat.
Proof.
  assert (tab ∈ Spec.tab_line) as Htab by (vm_compute; right; left).
  exists Spec.tab_line, Spec.tab_line, [lit "a"; lit "b"]. split_and!.
  - exists (lit "a" ++ [tab] ++ lit "b"). split.
    + vm_compute. left.
    + vm_compute. right. left.
  - by vm_compute.
  - done.
  - done.
  - by vm_compute.
  - by apply tab_in_name_more_columns.
Qed.
End writer.

(** ** The filing lister *)

Section lister.
Implicit Types (p s filter_text : str) (rows : list Tr).

Lemma startswith_prefix p s : startswith p s = true ↔ ∃ post, s = p ++ post.
Proof.
  revert s. induction p as [|a p IH]; intros s.
  - split; [by exists s|done].
  - destruct s as [|b s]; simpl.
    + split; [done|]. by intros [? ?].
    + rewrite andb_true_iff, IH, N.eqb_eq. split.
      * intros [-> [post ->]]. by exists post.
      * intros [post [= -> ->]]. split; [done|by exists post].
Qed.

(** [contains] decides occurrence as a contiguous block. *)
Lemma contains_occurs_in p s : contains p s = true ↔ SpecWeb.occurs_in p s.
Proof.
  unfold SpecWeb.occurs_in. induction s as [|b s IH].
  - simpl. rewrite orb_false_r, startswith_prefix. split.
    + intros [post Hs]. by exists [], post.
    + intros (pre & post & Hs). symmetry in Hs.
      apply app_eq_nil in Hs as [-> [-> ->]%app_eq_nil]. by exists [].
  - change (contains p (b :: s)) with (startswith p (b :: s) || contains p s).
    rewrite orb_true_iff, IH, startswith_prefix. split.
    + intros [[post Hs]|(pre & post & ->)].
      * by exists [], post.
      * by exists (b :: pre), post.
    + intros ([|b' pre] & post & Hs).
      * left. by exists post.
      * right. injection Hs as -> ->. by exists pre, post.
Qed.

Lemma contains_nil s : contains [] s = true.
Proof. apply contains_occurs_in. by exists [], s. Qed.

(** What one row adds to [table_content], exceptions swallowed. *)
Lemma row_step_listed filter_text (table_content : list FilingReference) (row : Tr) :
  row_step filter_text table_content (find_all_td row)
  = table_content ++ option_list (SpecWeb.listed filter_text row).
Proof.
  unfold row_step, row_body, SpecWeb.listed, SpecWeb.row_reference, index.
  destruct row as [cells].
  destruct cells as [|c0 [|c1 [|c2 [|c3 cells]]]];
    cbn -[sec_gov contains strip]; try by rewrite app_nil_r.
  destruct (contains filter_text (strip (get_text c0))) eqn:Hc;
    destruct (find_a c1) as [[[href|]]|]; cbn -[sec_gov contains strip];
    rewrite ?Hc; by rewrite ?app_nil_r.
Qed.

Lemma lister_loop filter_text rows :
  get_soup_contents_of (Some rows) filter_text
  = Ret (omap (SpecWeb.listed filter_text) rows).
Proof.
  unfold get_soup_contents_of. rewrite foldl_snoc_map. simpl. f_equal.
  enough (∀ acc, foldl (row_step filter_text) acc (map find_all_td rows)
                 = acc ++ omap (SpecWeb.listed filter_text) rows) as H by apply H.
  induction rows as [|row rows IH]; intros acc; csimpl.
  - by rewrite app_nil_r.
  - rewrite IH, row_step_listed, <- app_assoc. f_equal.
    by destruct (SpecWeb.listed filter_text row).
Qed.

Lemma omap_sublist {A B} (f : A → option B) (l : list A) :
  ∃ kept, kept `sublist_of` l ∧ Forall2 (λ x y, f x = Some y) kept (omap f l)
          ∧ Forall (λ x, f x = None ∨ x ∈ kept) l.
Proof.
  induction l as [|x l (kept & Hsub & Hall & Hrest)]; csimpl.
  - exists []. by split_and!.
  - destruct (f x) as [y|] eqn:Hx.
    + exists (x :: kept). split_and!.
      * by apply sublist_skip.
      * by constructor.
      * constructor; [right; left|].
        eapply Forall_impl; [done|]. intros z [?|?]; [by left|right; by right].
    + exists kept. split_and!; [by apply sublist_cons|done|].
      constructor; [by left|done].
Qed.

Lemma length_omap_le {A B} (f : A → option B) (l : list A) :
  (length (omap f l) ≤ length l)%nat.
Proof.
  induction l as [|x l IH]; csimpl; [lia|]. destruct (f x); csimpl; lia.
Qed.

(** X17.  On an index page with a filings table the lister returns, for
    any filter, without raising: the references of the rows that have the
    expected columns and whose title has the filter as a case-sensitive
    substring, in the order of the rows, so never more than there are
    rows; rows short of a column or of the link are passed over; and with
    the empty filter every row that has the columns is returned. *)
Theorem filing_lister rows filter_text :
  (∃ out kept,
     get_soup_contents_of (Some rows) filter_text = Ret out
     ∧ (length out ≤ length rows)%nat
     ∧ kept `sublist_of` rows
     ∧ Forall2 (λ row ref, SpecWeb.row_reference row = Some ref) kept out
     ∧ Forall (λ ref : FilingReference, SpecWeb.occurs_in filter_text ref.1.1) out
     ∧ out = omap (SpecWeb.listed filter_text) rows)
  ∧ get_soup_contents_of (Some rows) [] = Ret (omap SpecWeb.row_reference rows).
Proof.
  split.
  - destruct (omap_sublist (SpecWeb.listed filter_text) rows)
      as (kept & Hsub & Hall & _).
    exists (omap (SpecWeb.listed filter_text) rows), kept. split_and!.
    + apply lister_loop.
    + apply length_omap_le.
    + done.
    + eapply Forall2_impl; [done|]. intros row ref. unfold SpecWeb.listed.
      destruct (SpecWeb.row_reference row) as [ref'|]; [simpl|done].
      destruct (contains _ _); [|done]. by intros [= ->].
    + apply Forall2_Forall_r with (Q := λ ref : FilingReference,
        SpecWeb.occurs_in filter_text ref.1.1) in Hall; [done|].
      apply Forall_true. intros row ref. unfold SpecWeb.listed.
      destruct (SpecWeb.row_reference row) as [ref'|]; [simpl|done].
      destruct (contains _ _) eqn:Hc; [|done]. intros [= ->].
      by apply contains_occurs_in.
    + done.
  - rewrite lister_loop. f_equal. apply list_omap_ext, Forall2_same_length_lookup_2; [done|].
    intros i row row' Hi Hi'. assert (row = row') as <- by congruence.
    unfold SpecWeb.listed. destruct (SpecWeb.row_reference row); [simpl|done].
    by rewrite contains_nil.
Qed.
End lister.

(** ** The best-variant selector *)

Section selector.
Context (w : World).
Implicit Types (link ticker_link page : str) (inner_hrefs links : list str).
Implicit Types (log : list event) (infos : list (str * Z)).

Local Open Scope Z_scope.

Lemma make_request_run link log :
  link ≠ [] →
  make_request w link log
  = (match http_content w link with
     | Some data => Ret data
     | None => Raise RequestException
     end, log ++ [EvGet link]).
Proof.
  intros Hne. unfold make_request, mbind, M_bind, emit, mret, M_ret, raise.
  destruct link as [|x link]; [done|]. by destruct (http_content w (x :: link)).
Qed.

Lemma make_request_empty log :
  make_request w [] log = (Raise RequestException, log ++ [EvGet []]).
Proof. reflexivity. Qed.

(** Fetching inside [try ... except: return None]. *)
Lemma guarded_fetch_run link log :
  link ≠ [] →
  try_except (data ← make_request w link; mret (Some data)) (mret None) log
  = (Ret (http_content w link), log ++ [EvGet link]).
Proof.
  intros Hne. unfold try_except, mbind, M_bind. rewrite make_request_run by done.
  by destruct (http_content w link).
Qed.

Lemma guarded_fetch_empty log :
  try_except (data ← make_request w []; mret (Some data)) (mret None) log
  = (Ret None, log ++ [EvGet []]).
Proof. reflexivity. Qed.

(** Without a [.xml] href the first loop keeps the [.txt] links, in order. *)
Lemma collect_links_no_xml inner_hrefs links :
  Forall (λ href, contains (lit ".xml") href = false) inner_hrefs →
  collect_links inner_hrefs links
  = (links ++ SpecWeb.text_candidates inner_hrefs, false).
Proof.
  intros Hno. revert links.
  induction Hno as [|href inner_hrefs Hx _ IH]; intros links.
  - by rewrite app_nil_r.
  - cbn [collect_links]. rewrite Hx. unfold SpecWeb.text_candidates.
    cbn [List.filter]. destruct (contains (lit ".txt") href).
    + rewrite IH. unfold SpecWeb.text_candidates. cbn [map].
      by rewrite <- app_assoc.
    + by rewrite IH.
Qed.

Lemma probe_link_run link log n :
  SpecWeb.reported_length w link = Some n →
  probe_link w link log = (Ret (link, n), log ++ [EvProbe link]).
Proof.
  unfold SpecWeb.reported_length, probe_link, try_except, mbind, M_bind, emit,
    mret, M_ret, raise.
  destruct (http_content_length w link) as [[m|]|]; intros [= <-]; done.
Qed.

(** Every candidate is probed once, in order. *)
Lemma probe_all_run links log :
  Forall (λ link, is_Some (SpecWeb.reported_length w link)) links →
  mapM (probe_link w) links log
  = (Ret (map (λ link, (link, SpecWeb.length_of w link)) links),
     log ++ map EvProbe links).
Proof.
  intros Hall. revert log.
  induction Hall as [|link links [n Hn] _ IH]; intros log.
  - cbn. by rewrite app_nil_r.
  - cbn [mapM map]. unfold mbind at 1, M_bind at 1.
    rewrite (probe_link_run _ _ _ Hn). unfold mbind at 1, M_bind at 1.
    rewrite IH.
    replace (SpecWeb.length_of w link) with n
      by (unfold SpecWeb.length_of; by rewrite Hn).
    cbn. by rewrite <- app_assoc.
Qed.

(** The search of lines 145-150 stays where it started, or ends on the
    first entry of least length. *)
Lemma smallest_search infos (st : Z * str) :
  (foldl smallest_step st infos = st
   ∧ Forall (λ info, st.1 ≤ info.2) infos)
  ∨ (∃ (i : nat) link n,
       infos !! i = Some (link, n)
       ∧ foldl smallest_step st infos = (n, link)
       ∧ n < st.1
       ∧ Forall (λ info, n ≤ info.2) infos
       ∧ Forall (λ info, n < info.2) (take i infos)).
Proof.
  revert st. induction infos as [|[l m] infos IH]; intros st.
  - left. by split.
  - cbn [foldl].
    replace (smallest_step st (l, m)) with (if m <? st.1 then (m, l) else st)
      by reflexivity.
    destruct (Z.ltb_spec m st.1) as [Hlt|Hge].
    + right. destruct (IH (m, l)) as [[-> Hall]|(i & link & n & Hi & -> & Hn & Hall & Hpre)].
      * exists 0%nat, l, m. split_and!; [done..| |by constructor].
        constructor; [simpl; lia|done].
      * cbn [fst] in Hn. exists (S i), link, n. split_and!; [done..|lia| |].
        -- constructor; [simpl; lia|done].
        -- cbn [take]. constructor; [simpl; lia|done].
    + destruct (IH st) as [[-> Hall]|(i & link & n & Hi & -> & Hn & Hall & Hpre)].
      * left. split; [done|]. by constructor.
      * right. exists (S i), link, n. split_and!; [done..| |].
        -- constructor; [simpl; lia|done].
        -- cbn [take]. constructor; [simpl; lia|done].
Qed.

(** The first entry of least length is the one the search ends on. *)
Lemma smallest_search_first infos (i : nat) link n :
  infos !! i = Some (link, n) →
  n < smallest_start →
  Forall (λ info, n ≤ info.2) infos →
  Forall (λ info, n < info.2) (take i infos) →
  (foldl smallest_step (smallest_start, []) infos).2 = link.
Proof.
  intros Hi Hn Hmin Hfirst.
  destruct (smallest_search infos (smallest_start, []))
    as [[_ Hall]|(i' & link' & n' & Hi' & -> & Hn' & Hmin' & Hfirst')].
  - eapply Forall_lookup_1 in Hall; [|done]. simpl in Hall. lia.
  - cbn [snd]. destruct (Nat.lt_trichotomy i i') as [Hlt|[->|Hgt]].
    + eapply Forall_lookup_1 with (i := i) in Hfirst';
        [|rewrite lookup_take_lt; done].
      eapply Forall_lookup_1 in Hmin; [|exact Hi']. simpl in *. lia.
    + congruence.
    + eapply Forall_lookup_1 with (i := i') in Hfirst;
        [|rewrite lookup_take_lt; done].
      eapply Forall_lookup_1 in Hmin'; [|exact Hi]. simpl in *. lia.
Qed.
End selector.

Section selector_claims.
Context (w : World).
Implicit Types (link ticker_link page : str) (inner_hrefs links : list str).

Local Open Scope Z_scope.

Lemma sec_gov_link_not_nil (href : str) : sec_gov ++ href ≠ [].
Proof. done. Qed.

Lemma text_candidates_not_nil inner_hrefs link :
  link ∈ SpecWeb.text_candidates inner_hrefs → link ≠ [].
Proof.
  unfold SpecWeb.text_candidates. intros (href & -> & _)%list_elem_of_fmap.
  apply sec_gov_link_not_nil.
Qed.

Lemma text_candidates_none inner_hrefs :
  Forall (λ href, contains (lit ".txt") href = false) inner_hrefs →
  SpecWeb.text_candidates inner_hrefs = [].
Proof.
  unfold SpecWeb.text_candidates.
  induction 1 as [|href inner_hrefs Ht _ IH]; [done|].
  cbn [List.filter]. by rewrite Ht.
Qed.

(** The selector up to the end of its first loop. *)
Lemma selector_prefix_run ticker_link page inner_hrefs :
  run (make_request w ticker_link) = (Ret page, [EvGet ticker_link]) →
  soup_tableFile w page = Some inner_hrefs →
  run (extract_data_from_text_files w ticker_link)
  = (let '(inner_links, xml_found) := collect_links inner_hrefs [] in
     if negb xml_found then
       inner_links_info ← mapM (probe_link w) inner_links;
       let '(smallest, smallest_link) :=
         foldl smallest_step (smallest_start, []) inner_links_info in
       try_except
         (text_data ← make_request w smallest_link; mret (Some text_data))
         (mret None)
     else
       try_except
         (link ← lift (index inner_links 0);
          xml_data ← make_request w link;
          mret (Some xml_data))
         (mret None)) [EvGet ticker_link].
Proof.
  unfold run, extract_data_from_text_files. intros Hpage Htable.
  unfold mbind at 1, M_bind at 1. by rewrite Hpage, Htable.
Qed.

(** The first fetch and the table lookup are outside any [try]: their
    exceptions leave the selector. *)
Lemma selector_raises_unreachable ticker_link :
  ticker_link ≠ [] →
  http_content w ticker_link = None →
  run (extract_data_from_text_files w ticker_link)
  = (Raise RequestException, [EvGet ticker_link]).
Proof.
  intros Hne Hnone. unfold run, extract_data_from_text_files.
  unfold mbind at 1, M_bind at 1. rewrite make_request_run by done.
  by rewrite Hnone.
Qed.

Lemma selector_raises_no_table ticker_link page :
  run (make_request w ticker_link) = (Ret page, [EvGet ticker_link]) →
  soup_tableFile w page = None →
  run (extract_data_from_text_files w ticker_link)
  = (Raise AttributeError, [EvGet ticker_link]).
Proof.
  unfold run, extract_data_from_text_files. intros Hpage Htable.
  unfold mbind at 1, M_bind at 1. by rewrite Hpage, Htable.
Qed.

(** X16.  On a detail page without a [.xml] href, when the
    [Content-length] of every plain-text candidate is a number or cannot
    be determined (which counts as zero), the selector probes every
    candidate in order, and what it returns is the outcome of fetching the
    first candidate of least reported length, provided that least length
    is below the starting value [smallest_start] of the search: its body,
    or the absence signal when that fetch fails. *)
Theorem smallest_text_candidate ticker_link page inner_hrefs (i : nat) link :
  run (make_request w ticker_link) = (Ret page, [EvGet ticker_link]) →
  soup_tableFile w page = Some inner_hrefs →
  Forall (λ href, contains (lit ".xml") href = false) inner_hrefs →
  Forall (λ other, is_Some (SpecWeb.reported_length w other))
         (SpecWeb.text_candidates inner_hrefs) →
  SpecWeb.text_candidates inner_hrefs !! i = Some link →
  SpecWeb.length_of w link < smallest_start →
  Forall (λ other, SpecWeb.length_of w link ≤ SpecWeb.length_of w other)
         (SpecWeb.text_candidates inner_hrefs) →
  Forall (λ other, SpecWeb.length_of w link < SpecWeb.length_of w other)
         (take i (SpecWeb.text_candidates inner_hrefs)) →
  run (extract_data_from_text_files w ticker_link)
  = (Ret (http_content w link),
     [EvGet ticker_link]
     ++ map EvProbe (SpecWeb.text_candidates inner_hrefs)
     ++ [EvGet link]).
Proof.
  intros Hpage Htable Hxml Hlen Hi Hbelow Hmin Hfirst.
  rewrite (selector_prefix_run _ _ _ Hpage Htable).
  rewrite (collect_links_no_xml _ [] Hxml). cbn [app negb].
  set (candidates := SpecWeb.text_candidates inner_hrefs) in *.
  unfold mbind at 1, M_bind at 1. rewrite probe_all_run by done.
  set (infos := map (λ other, (other, SpecWeb.length_of w other)) candidates).
  assert ((foldl smallest_step (smallest_start, []) infos).2 = link) as Hsel.
  { apply smallest_search_first with (i := i) (n := SpecWeb.length_of w link).
    - unfold infos. by rewrite list_lookup_fmap, Hi.
    - done.
    - unfold infos. by apply Forall_fmap.
    - unfold infos. rewrite <- fmap_take. by apply Forall_fmap. }
  destruct (foldl smallest_step (smallest_start, []) infos) as [smallest smallest_link].
  cbn [snd] in Hsel. subst smallest_link.
  rewrite guarded_fetch_run.
  - by rewrite <- app_assoc.
  - eapply text_candidates_not_nil, list_elem_of_lookup_2, Hi.
Qed.

(** C10.  On a detail page whose table has neither a [.xml] nor a [.txt]
    href the selector keeps no link, so the search for the smallest
    length leaves the link empty; the fetch of the empty link raises, and
    the handler turns that into the absence signal. *)
Theorem no_candidate_returns_none ticker_link page inner_hrefs :
  run (make_request w ticker_link) = (Ret page, [EvGet ticker_link]) →
  soup_tableFile w page = Some inner_hrefs →
  Forall (λ href, contains (lit ".xml") href = false
                  ∧ contains (lit ".txt") href = false) inner_hrefs →
  collect_links inner_hrefs [] = ([], false)
  ∧ run (make_request w []) = (Raise RequestException, [EvGet []])
  ∧ run (extract_data_from_text_files w ticker_link)
    = (Ret None, [EvGet ticker_link; EvGet []]).
Proof.
  intros Hpage Htable Hno.
  assert (collect_links inner_hrefs [] = ([], false)) as Hlinks.
  { rewrite collect_links_no_xml, text_candidates_none; [done|..];
      (eapply Forall_impl; [exact Hno|]; by intros href [? ?]). }
  split_and!; [done..|].
  rewrite (selector_prefix_run _ _ _ Hpage Htable), Hlinks. reflexivity.
Qed.

(** With a [.xml] href on the page, the first loop stops at the first
    one, having kept the [.txt] links met before it. *)
Lemma collect_links_xml (pre post : list str) (href : str) links :
  Forall (λ href, contains (lit ".xml") href = false) pre →
  contains (lit ".xml") href = true →
  collect_links (pre ++ href :: post) links
  = (links ++ SpecWeb.text_candidates pre ++ [sec_gov ++ href], true).
Proof.
  intros Hpre Hx. revert links.
  induction Hpre as [|h pre Hh _ IH]; intros links.
  - cbn [app collect_links]. by rewrite Hx.
  - cbn [app collect_links]. rewrite Hh. unfold SpecWeb.text_candidates.
    cbn [List.filter]. destruct (contains (lit ".txt") h).
    + rewrite IH. unfold SpecWeb.text_candidates. cbn [map].
      by rewrite <- !app_assoc.
    + by rewrite IH.
Qed.

(** X11.  What the XML branch fetches is the head of [inner_links]: the XML
    link only when no [.txt] link was met before it. *)
Lemma xml_branch_fetches_head ticker_link page (pre post : list str) (href : str) :
  run (make_request w ticker_link) = (Ret page, [EvGet ticker_link]) →
  soup_tableFile w page = Some (pre ++ href :: post) →
  Forall (λ href, contains (lit ".xml") href = false) pre →
  contains (lit ".xml") href = true →
  let fetched := hd (sec_gov ++ href) (SpecWeb.text_candidates pre) in
  run (extract_data_from_text_files w ticker_link)
  = (Ret (http_content w fetched), [EvGet ticker_link; EvGet fetched]).
Proof.
  intros Hpage Htable Hpre Hx fetched.
  rewrite (selector_prefix_run _ _ _ Hpage Htable).
  rewrite (collect_links_xml _ _ _ [] Hpre Hx). cbn [app negb].
  assert (∃ rest, SpecWeb.text_candidates pre ++ [sec_gov ++ href] = fetched :: rest
                  ∧ fetched ≠ []) as (rest & -> & Hne).
  { subst fetched. destruct (SpecWeb.text_candidates pre) as [|l ls] eqn:E.
    - exists []. split; [done|apply sec_gov_link_not_nil].
    - exists (ls ++ [sec_gov ++ href]). split; [done|].
      apply (text_candidates_not_nil pre). rewrite E. left. }
  unfold try_except, mbind at 1, M_bind at 1, lift, index. cbn [lookup list_lookup].
  unfold mbind, M_bind. rewrite make_request_run by done.
  by destruct (http_content w fetched).
Qed.
End selector_claims.

Section selector_examples.
Import Examples.

Lemma smallest_text_candidate_witness :
  (run (make_request two_texts_world detail_link) = (Ret detail_page, [EvGet detail_link])
   ∧ soup_tableFile two_texts_world detail_page
     = Some [lit "/Archives/signed.txt"; lit "/Archives/plain.txt"]
   ∧ SpecWeb.text_candidates [lit "/Archives/signed.txt"; lit "/Archives/plain.txt"]
     = [link_of "/Archives/signed.txt"; link_of "/Archives/plain.txt"]
   ∧ SpecWeb.length_of two_texts_world (link_of "/Archives/signed.txt") = 12000%Z
   ∧ SpecWeb.length_of two_texts_world (link_of "/Archives/plain.txt") = 500%Z)
  ∧ run (extract_data_from_text_files two_texts_world detail_link)
    = (Ret (Some (lit "<TABLE>holdings</TABLE>")),
       [ EvGet detail_link;
         EvProbe (link_of "/Archives/signed.txt");
         EvProbe (link_of "/Archives/plain.txt");
         EvGet (link_of "/Archives/plain.txt") ]).
Proof.
  split; [by vm_compute|].
  apply (smallest_text_candidate two_texts_world detail_link detail_page
           [lit "/Archives/signed.txt"; lit "/Archives/plain.txt"]
           1 (link_of "/Archives/plain.txt")).
  - by vm_compute.
  - by vm_compute.
  - repeat constructor.
  - constructor; [by exists 12000%Z; vm_compute|].
    constructor; [by exists 500%Z; vm_compute|constructor].
  - by vm_compute.
  - by vm_compute.
  - repeat constructor; by vm_compute.
  - repeat constructor; by vm_compute.
Defined.

(** The search starts from [smallest_start] and only moves to a strictly
    smaller length: a single text candidate that reports exactly that
    length is not selected, the empty link is fetched in its place and
    the absence signal comes back. *)
Lemma sentinel_length_counterexample :
  soup_tableFile huge_text_world detail_page = Some [lit "/Archives/plain.txt"]
  ∧ SpecWeb.text_candidates [lit "/Archives/plain.txt"] = [link_of "/Archives/plain.txt"]
  ∧ SpecWeb.reported_length huge_text_world (link_of "/Archives/plain.txt")
    = Some smallest_start
  ∧ http_content huge_text_world (link_of "/Archives/plain.txt")
    = Some (lit "<TABLE>holdings</TABLE>")
  ∧ run (extract_data_from_text_files huge_text_world detail_link)
    = (Ret None,
       [EvGet detail_link; EvProbe (link_of "/Archives/plain.txt"); EvGet []])
  ∧ (run (extract_data_from_text_files huge_text_world detail_link)).1
    ≠ Ret (http_content huge_text_world (link_of "/Archives/plain.txt")).
Proof. vm_compute. split_and!; done. Qed.

Lemma no_candidate_returns_none_witness :
  (run (make_request no_candidate_world detail_link) = (Ret detail_page, [EvGet detail_link])
   ∧ soup_tableFile no_candidate_world detail_page = Some [lit "/Archives/primary_doc.htm"])
  ∧ collect_links [lit "/Archives/primary_doc.htm"] [] = ([], false)
  ∧ run (make_request no_candidate_world []) = (Raise RequestException, [EvGet []])
  ∧ run (extract_data_from_text_files no_candidate_world detail_link)
    = (Ret None, [EvGet detail_link; EvGet []]).
Proof.
  split; [by vm_compute|].
  apply (no_candidate_returns_none no_candidate_world detail_link detail_page
           [lit "/Archives/primary_doc.htm"]).
  - by vm_compute.
  - by vm_compute.
  - repeat constructor.
Defined.

(** C2 on the code.  On a detail page that lists a text file before the
    XML file, [inner_links[0]] is the text link: the selector fetches and
    returns the text file, not the XML file. *)
Theorem text_listed_before_xml_is_fetched :
  soup_tableFile text_before_xml_world detail_page
  = Some [lit "/Archives/submission.txt"; lit "/Archives/infotable.xml"]
  ∧ collect_links [lit "/Archives/submission.txt"; lit "/Archives/infotable.xml"] []
    = ([link_of "/Archives/submission.txt"; link_of "/Archives/infotable.xml"], true)
  ∧ http_content text_before_xml_world (link_of "/Archives/infotable.xml")
    = Some (lit "<informationTable/>")
  ∧ run (extract_data_from_text_files text_before_xml_world detail_link)
    = (Ret (Some (lit "complete submission text")),
       [EvGet detail_link; EvGet (link_of "/Archives/submission.txt")]).
Proof. vm_compute. split_and!; done. Qed.

Example main_two_filings :
  run (main (two_filings_world detail_page) ticker_id (lit "13F"))
  = (Ret [ lit "0001166559_13F-HR_2006-05-15_results.tsv";
           lit "0001166559_13F-HR_2006-02-14_results.tsv" ],
     [ EvGet (build_url ticker_id);
       EvGet detail_link;
       EvGet (link_of "/Archives/1.xml");
       EvWrite (lit "results/0001166559_13F-HR_2006-05-15_results.tsv")
               (lit "MELLON FINANCIAL CORP COM" ++ [tab] ++ lit "58551A108" ++ [tab]
                ++ lit "1234" ++ [tab] ++ lit "100" ++ [tab] ++ lit "SH" ++ [nl]);
       EvGet (link_of "/Archives/2-index.htm");
       EvGet (link_of "/Archives/2.xml");
       EvWrite (lit "results/0001166559_13F-HR_2006-02-14_results.tsv")
               (lit "MELLON FINANCIAL CORP COM" ++ [tab] ++ lit "58551A108" ++ [tab]
                ++ lit "1234" ++ [tab] ++ lit "100" ++ [tab] ++ lit "SH" ++ [nl]) ]).
Proof. vm_compute. reflexivity. Qed.

(** C4 on the code.  The selector raises to its caller when the detail
    page cannot be fetched and when the page has no documents table; in
    [main] the exception ends the run before the second filing is looked
    at, and nothing is written. *)
Theorem selector_failure_aborts_run :
  run (extract_data_from_text_files unreachable_world detail_link)
  = (Raise RequestException, [EvGet detail_link])
  ∧ run (extract_data_from_text_files (two_filings_world refusal_page) detail_link)
    = (Raise AttributeError, [EvGet detail_link])
  ∧ run (main (two_filings_world refusal_page) ticker_id (lit "13F"))
    = (Raise AttributeError, [EvGet (build_url ticker_id); EvGet detail_link]).
Proof. vm_compute. split_and!; done. Qed.
End selector_examples.

(** ** More on the record normalizer *)

Section normalizer_fields.
Implicit Types (line text t : str) (toks names : list str).

Lemma length_list_remove t toks :
  (length toks ≤ S (length (list_remove t toks)))%nat.
Proof.
  induction toks as [|y toks IH]; simpl; [lia|].
  case_bool_decide; simpl; lia.
Qed.

Lemma length_remove_loop names toks :
  (length toks ≤ length (foldl remove_step toks names) + length names)%nat.
Proof.
  revert toks. induction names as [|t names IH]; intros toks; simpl; [lia|].
  specialize (IH (remove_step toks t)). unfold remove_step in *.
  case_bool_decide; [|lia]. pose proof (length_list_remove t toks). lia.
Qed.

Lemma length_filter_truthy (l : list str) :
  (length (List.filter truthy l) ≤ length l)%nat.
Proof. induction l as [|[|x p] l IH]; simpl; lia. Qed.

Lemma name_candidates_at_most_six line :
  (length (List.filter truthy (take 6 (split_on space line))) ≤ 6)%nat.
Proof.
  etrans; [apply length_filter_truthy|]. rewrite length_take. lia.
Qed.

(** X1.  Every field after the name is a whitespace token: not empty and free
    of whitespace, so of tabs and newlines; and the loop of lines 47-49
    takes at most six tokens away. *)
Theorem record_trailing_fields line :
  ∃ name rest,
    normalize_line line = name :: rest
    ∧ Forall Spec.word rest
    ∧ (length rest ≤ length (split line))%nat
    ∧ (length (split line) ≤ length rest + 6)%nat.
Proof.
  rewrite normalize_line_eq. eexists _, _. split; [done|].
  pose proof (remove_loop_sublist
    (List.filter truthy (take 6 (split_on space line))) (split line)) as Hsub.
  split_and!.
  - apply Forall_forall. intros t Ht.
    pose proof (split_is_words line) as Hw.
    eapply Forall_forall in Hw; [done|]. by eapply elem_of_sublist.
  - by apply sublist_length.
  - pose proof (length_remove_loop
      (List.filter truthy (take 6 (split_on space line))) (split line)).
    pose proof (name_candidates_at_most_six line). lia.
Qed.

(** Joining pieces that are free of the separator and splitting again
    gives the pieces back. *)
Lemma split_on_join (c : N) (l : list str) :
  l ≠ [] → Forall (λ p, c ∉ p) l → split_on c (join [c] l) = l.
Proof.
  intros Hne Hall. induction Hall as [|p l Hp Hall IH]; [done|].
  destruct l as [|q l].
  - by apply split_on_single.
  - change (join [c] (p :: q :: l)) with (p ++ c :: join [c] (q :: l)).
    rewrite split_on_app by done. by rewrite IH.
Qed.

Lemma name_candidates_pieces line :
  Forall (λ p : str, p ≠ [] ∧ space ∉ p)
         (List.filter truthy (take 6 (split_on space line))).
Proof.
  apply Forall_forall. intros p Hp. apply list_elem_of_In, filter_In in Hp as [Hp Ht].
  apply list_elem_of_In, elem_of_take_elem, split_on_pieces in Hp as [Hsp _].
  split; [by destruct p|done].
Qed.

(** X2.  The name is single-spaced: it is empty, or it splits at single spaces
    into at most six pieces none of which is empty, so it has no leading,
    trailing or doubled space. *)
Theorem name_single_spaced line :
  ∃ name rest,
    normalize_line line = name :: rest
    ∧ (name = []
       ∨ (Forall (λ p : str, p ≠ []) (split_on space name)
          ∧ (length (split_on space name) ≤ 6)%nat
          ∧ split_on space name `sublist_of` split_on space line)).
Proof.
  rewrite normalize_line_eq. eexists _, _. split; [done|].
  pose proof (name_candidates_pieces line) as Hp.
  pose proof (name_candidates_at_most_six line) as Hlen.
  destruct (List.filter truthy (take 6 (split_on space line))) as [|p cands] eqn:E;
    [by left|right].
  rewrite split_on_join; [|done|by eapply Forall_impl; [exact Hp|]; intros ? [? ?]].
  split_and!.
  - eapply Forall_impl; [exact Hp|]. by intros ? [? ?].
  - done.
  - rewrite <- E, filter_truthy. etrans; [apply sublist_filter|apply sublist_take].
Qed.

(** X3.  When none of the first six single-space pieces holds a whitespace
    character, the name candidates are the first tokens of the line, the
    loop of lines 47-49 removes exactly them, and the trailing fields
    are the tokens of the rest of the line, none lost and none doubled. *)
Theorem space_separated_record line :
  Forall (Forall (λ x, isspace x = false)) (take 6 (split_on space line)) →
  ∃ cands rest,
    cands = List.filter truthy (take 6 (split_on space line))
    ∧ rest = concat (map split (drop 6 (split_on space line)))
    ∧ split line = cands ++ rest
    ∧ normalize_line line = join [space] cands :: rest.
Proof.
  intros Hws. eexists _, _. split; [done|]. split; [done|].
  assert (split line
          = List.filter truthy (take 6 (split_on space line))
            ++ concat (map split (drop 6 (split_on space line)))) as Hsplit.
  { by rewrite (split_line_by_pieces line) at 1; rewrite (concat_split_pieces _ Hws). }
  split; [done|].
  rewrite normalize_line_eq. rewrite Hsplit at 1. by rewrite remove_loop_front.
Qed.

Lemma space_separated_record_witness :
  Forall (Forall (λ x, isspace x = false)) (take 6 (split_on space Spec.mellon_line))
  ∧ ∃ cands rest,
      cands = List.filter truthy (take 6 (split_on space Spec.mellon_line))
      ∧ rest = concat (map split (drop 6 (split_on space Spec.mellon_line)))
      ∧ split Spec.mellon_line = cands ++ rest
      ∧ normalize_line Spec.mellon_line = join [space] cands :: rest.
Proof.
  assert (Forall (Forall (λ x, isspace x = false))
            (take 6 (split_on space Spec.mellon_line))) as H.
  { vm_compute. repeat (constructor; try reflexivity). }
  split; [exact H|]. exact (space_separated_record Spec.mellon_line H).
Defined.
End normalizer_fields.

(** ** More on [convert_to_tsv] *)

Section results_file.
Implicit Types (line text filename ws t : str) (records : list (list str)).

Lemma lstrip_spaces ws : Forall (λ c, isspace c = true) ws → lstrip ws = [].
Proof. induction 1 as [|c ws Hc _ IH]; [done|]. simpl. by rewrite Hc. Qed.

Lemma lstrip_app_spaces ws t :
  Forall (λ c, isspace c = true) ws → lstrip (ws ++ t) = lstrip t.
Proof. induction 1 as [|c ws Hc _ IH]; [done|]. simpl. by rewrite Hc. Qed.

Lemma lstrip_spaces_app t ws :
  Forall (λ c, isspace c = true) ws →
  lstrip (t ++ ws) = match lstrip t with [] => [] | _ :: _ => lstrip t ++ ws end.
Proof.
  intros Hws. induction t as [|x t IH].
  - simpl. by apply lstrip_spaces.
  - simpl. by destruct (isspace x).
Qed.

Lemma rstrip_app_spaces t ws :
  Forall (λ c, isspace c = true) ws → rstrip (t ++ ws) = rstrip t.
Proof.
  intros Hws. unfold rstrip. rewrite reverse_app, lstrip_app_spaces; [done|].
  by apply Forall_reverse.
Qed.

Lemma strip_surrounding ws1 ws2 t :
  Forall (λ c, isspace c = true) ws1 →
  Forall (λ c, isspace c = true) ws2 →
  strip (ws1 ++ t ++ ws2) = strip t.
Proof.
  intros H1 H2. unfold strip. rewrite lstrip_app_spaces, lstrip_spaces_app by done.
  destruct (lstrip t) as [|x r]; [done|]. by rewrite rstrip_app_spaces.
Qed.

Lemma lstrip_suffix t : ∃ ws, t = ws ++ lstrip t.
Proof.
  induction t as [|x t [ws IH]]; [by exists []|]. simpl.
  destruct (isspace x); [|by exists []]. exists (x :: ws). simpl. by f_equal.
Qed.



(** X4.  A text block of nothing but whitespace, the empty one included, gives
    the single record with the empty name, and a results file that is one
    empty line. *)
Theorem blank_text_one_empty_line filename text :
  Forall (λ c, isspace c = true) text →
  res_lines text = [[[]]] ∧ (convert_to_tsv filename text).2 = [nl].
Proof.
  intros Hws.
  assert (strip text = []) as Hstrip.
  { unfold strip. by rewrite lstrip_spaces. }
  assert (res_lines text = [[[]]]) as Hres.
  { by rewrite res_lines_map, Hstrip. }
  split; [done|]. unfold convert_to_tsv. cbn [snd]. by rewrite Hres.
Qed.

Lemma blank_text_one_empty_line_witness :
  Forall (λ c, isspace c = true) [nl; space; tab; nl]
  ∧ res_lines [nl; space; tab; nl] = [[[]]]
  ∧ (convert_to_tsv (lit "f") [nl; space; tab; nl]).2 = [nl].
Proof.
  assert (Forall (λ c, isspace c = true) [nl; space; tab; nl]) as H
    by (repeat constructor).
  split; [exact H|]. exact (blank_text_one_empty_line (lit "f") _ H).
Defined.

(** X5.  Whitespace around the text block, blank lines included, changes
    nothing in the file written. *)
Theorem surrounding_whitespace_ignored filename ws1 ws2 text :
  Forall (λ c, isspace c = true) ws1 →
  Forall (λ c, isspace c = true) ws2 →
  convert_to_tsv filename (ws1 ++ text ++ ws2) = convert_to_tsv filename text.
Proof.
  intros H1 H2. unfold convert_to_tsv, res_lines.
  by rewrite strip_surrounding.
Qed.

Lemma surrounding_whitespace_ignored_witness :
  (Forall (λ c, isspace c = true) [nl; space]
   ∧ Forall (λ c, isspace c = true) [nl; tab; nl])
  ∧ convert_to_tsv (lit "f") ([nl; space] ++ Spec.mellon_line ++ [nl; tab; nl])
    = convert_to_tsv (lit "f") Spec.mellon_line.
Proof.
  assert (Forall (λ c, isspace c = true) [nl; space]) as H1 by (repeat constructor).
  assert (Forall (λ c, isspace c = true) [nl; tab; nl]) as H2 by (repeat constructor).
  split; [by split|].
  exact (surrounding_whitespace_ignored (lit "f") _ _ Spec.mellon_line H1 H2).
Defined.



(** The loop of lines 59-68 hands to the file the records whose write
    does not raise, each as its fields joined by tabs and closed by a
    newline. *)
Lemma write_records_in_concat (raises : str → bool) records :
  write_records_in raises records
  = concat (map (λ each, join [tab] each ++ [nl])
              (List.filter (λ each, negb (raises (join [tab] each ++ [nl]))) records)).
Proof.
  unfold write_records_in.
  enough (∀ file : str,
    foldl (λ tsv_file each,
             if raises (join [tab] each ++ [nl]) then tsv_file
             else tsv_file ++ (join [tab] each ++ [nl])) file records
    = file ++ concat (map (λ each, join [tab] each ++ [nl])
                        (List.filter (λ each, negb (raises (join [tab] each ++ [nl])))
                           records))) as H by apply (H []).
  induction records as [|each records IH]; intros file; simpl.
  - by rewrite app_nil_r.
  - rewrite IH. destruct (raises (join [tab] each ++ [nl])); simpl; [done|].
    by rewrite <- app_assoc.
Qed.



(** When nothing fails, [convert_to_tsv] writes the one file
    [convert_to_tsv_in]'s path and contents say. *)
Lemma convert_to_tsv_in_no_failure (w : World) filename text log :
  open_raises w (lit "results/" ++ filename ++ lit ".tsv") = false →
  close_raises w (lit "results/" ++ filename ++ lit ".tsv") = false →
  Forall (λ each, write_raises w (join [tab] each ++ [nl]) = false) (res_lines text) →
  convert_to_tsv_in w filename text log
  = (Ret tt, log ++ [EvWrite (convert_to_tsv filename text).1
                             (convert_to_tsv filename text).2]).
Proof.
  intros Hopen Hclose Hwrites. unfold convert_to_tsv_in, convert_to_tsv.
  rewrite Hopen. unfold mbind, M_bind, emit, raise, mret, M_ret. rewrite Hclose.
  cbn [fst snd]. do 2 f_equal. f_equal.
  rewrite write_records_concat, write_records_in_concat. do 2 f_equal.
  induction Hwrites as [|each records Heach _ IH]; [done|].
  simpl. rewrite Heach. simpl. by f_equal.
Qed.
End results_file.

(** ** The table extractor *)

Section extractor.
Context (w : World).
Implicit Types (line text_data marker : str) (tables lines : list str).

(** [filter_found] holds exactly when one of the four markers occurs in
    the line. *)
Lemma filter_found_occurs line :
  filter_found line = true
  ↔ ∃ marker, marker ∈ filter_vals ∧ SpecWeb.occurs_in marker line.
Proof.
  unfold filter_found. rewrite existsb_exists. split.
  - intros (marker & Hin & Hc). exists marker.
    split; [by apply list_elem_of_In|by apply contains_occurs_in].
  - intros (marker & Hin & Hc). exists marker.
    split; [by apply list_elem_of_In|by apply contains_occurs_in].
Qed.

(** The two nested loops of lines 87-99 keep, table after table and line
    after line, the lines in which no marker is found. *)
Lemma extractor_loops tables :
  foldl (λ xml_results vals,
           foldl (λ xml_results line,
                    if negb (filter_found line)
                    then xml_results ++ [line] else xml_results)
                 xml_results (split_on nl vals))
        [] tables
  = List.filter (λ line, negb (filter_found line))
      (concat (map (split_on nl) tables)).
Proof.
  enough (∀ acc,
    foldl (λ xml_results vals,
             foldl (λ xml_results line,
                      if negb (filter_found line)
                      then xml_results ++ [line] else xml_results)
                   xml_results (split_on nl vals))
          acc tables
    = acc ++ List.filter (λ line, negb (filter_found line))
               (concat (map (split_on nl) tables))) as H by apply (H []).
  assert (∀ lines acc,
    foldl (λ xml_results line,
             if negb (filter_found line)
             then xml_results ++ [line] else xml_results) acc lines
    = acc ++ List.filter (λ line, negb (filter_found line)) lines) as Hinner.
  { induction lines as [|line lines IH]; intros acc; simpl.
    - by rewrite app_nil_r.
    - rewrite IH. destruct (filter_found line); simpl; [done|].
      by rewrite <- app_assoc. }
  induction tables as [|vals tables IH]; intros acc; simpl.
  - by rewrite app_nil_r.
  - rewrite IH, Hinner, List.filter_app. by rewrite <- app_assoc.
Qed.

(** X7.  When the parser recovers a tree, the extractor returns a text (the
    empty one when no line is kept, not the absence signal) whose lines
    are the lines of the tables' texts in which none of the four markers
    occurs, in their order; no line of the result holds a marker. *)
Theorem table_extractor_lines text_data tables :
  etree_tables w text_data = Some tables →
  let kept := List.filter (λ line, negb (filter_found line))
                (concat (map (split_on nl) tables)) in
  ∃ out,
    extract_xml_content_from_text w text_data = Some out
    ∧ split_on nl out = match kept with [] => [[]] | _ :: _ => kept end
    ∧ Forall (λ line, ∀ marker, marker ∈ filter_vals → ¬ SpecWeb.occurs_in marker line)
             (split_on nl out)
    ∧ (∀ line, line ∈ concat (map (split_on nl) tables) →
         (∀ marker, marker ∈ filter_vals → ¬ SpecWeb.occurs_in marker line) →
         line ∈ split_on nl out).
Proof.
  intros Htables kept. exists (join [nl] kept).
  assert (extract_xml_content_from_text w text_data = Some (join [nl] kept)) as Hout.
  { unfold extract_xml_content_from_text. by rewrite Htables, extractor_loops. }
  assert (Forall (λ line, (nl ∉ line) ∧ filter_found line = false) kept) as Hkept.
  { apply Forall_forall. intros line Hin.
    apply list_elem_of_In, filter_In in Hin as [Hin Hf].
    apply negb_true_iff in Hf. split; [|done].
    apply in_concat in Hin as (pieces & Hp & Hin).
    apply in_map_iff in Hp as (vals & <- & _).
    by apply list_elem_of_In, split_on_pieces in Hin as [? _]. }
  assert (split_on nl (join [nl] kept)
          = match kept with [] => [[]] | _ :: _ => kept end) as Hsplit.
  { destruct kept as [|l kept'] eqn:E; [done|]. apply split_on_join; [done|].
    eapply Forall_impl; [exact Hkept|]. by intros ? [? ?]. }
  split_and!; [done..| |].
  - rewrite Hsplit. destruct kept as [|l kept'] eqn:E.
    + constructor; [|done]. intros marker Hm (pre & post & Hnil).
      symmetry in Hnil. apply app_eq_nil in Hnil as [_ [-> _]%app_eq_nil].
      revert Hm. unfold filter_vals. rewrite !elem_of_cons, elem_of_nil.
      by intros [?|[?|[?|[?|?]]]].
    + eapply Forall_impl; [exact Hkept|]. intros line [_ Hf] marker Hm Hocc.
      assert (filter_found line = true) as Ht; [|congruence].
      apply filter_found_occurs. by exists marker.
  - intros line Hin Hfree. rewrite Hsplit.
    assert (line ∈ kept) as Hk.
    { apply list_elem_of_In, filter_In. split; [by apply list_elem_of_In|].
      apply negb_true_iff. destruct (filter_found line) eqn:Hf; [|done].
      apply filter_found_occurs in Hf as (marker & Hm & Hocc).
      by destruct (Hfree marker Hm). }
    destruct kept; [by apply elem_of_nil in Hk|done].
Qed.

End extractor.

Lemma table_extractor_lines_witness :
  etree_tables Readback.tables_world (lit "<xml/>")
  = Some [ lit "FORM 13F INFORMATION TABLE" ++ [nl] ++ Spec.mellon_line;
           lit "AT&T INC   COM" ++ [nl] ++ lit "Total   ( 2 items )" ]
  ∧ ∃ out,
      extract_xml_content_from_text Readback.tables_world (lit "<xml/>") = Some out
      ∧ split_on nl out = [Spec.mellon_line; lit "AT&T INC   COM"].
Proof.
  assert (etree_tables Readback.tables_world (lit "<xml/>")
          = Some [ lit "FORM 13F INFORMATION TABLE" ++ [nl] ++ Spec.mellon_line;
                   lit "AT&T INC   COM" ++ [nl] ++ lit "Total   ( 2 items )" ]) as H
    by (by vm_compute).
  split; [exact H|].
  destruct (table_extractor_lines Readback.tables_world _ _ H) as (out & Hout & Hsplit & _).
  exists out. split; [exact Hout|]. rewrite Hsplit. by vm_compute.
Defined.

(** ** More on the filing lister *)

Section lister_output.
Implicit Types (s t filter_text : str) (rows : list Tr).

Lemma lstrip_head t :
  match lstrip t with [] => True | x :: _ => isspace x = false end.
Proof.
  induction t as [|x t IH]; [done|]. simpl.
  by destruct (isspace x) eqn:Hx.
Qed.

Lemma rstrip_prefix t : ∃ ws, t = rstrip t ++ ws.
Proof.
  unfold rstrip. destruct (lstrip_suffix (reverse t)) as [ws Hws].
  exists (reverse ws). rewrite <- reverse_app, <- Hws. by rewrite reverse_involutive.
Qed.

(** [strip] leaves no whitespace at either end. *)
Lemma strip_stripped t : Readback.stripped (strip t).
Proof.
  unfold Readback.stripped, strip. split.
  - pose proof (lstrip_head t) as Hhead.
    destruct (rstrip_prefix (lstrip t)) as [ws Hws].
    destruct (rstrip (lstrip t)) as [|x r]; [done|].
    rewrite Hws in Hhead. done.
  - unfold rstrip. rewrite last_reverse.
    pose proof (lstrip_head (reverse (lstrip t))) as Hhead.
    by destruct (lstrip (reverse (lstrip t))).
Qed.

(** X8.  Whatever the cells hold, every reference the lister returns is
    made from one row of the table: its title is the text of the row's
    column 0 and its filing date the text of column 3, both stripped, so
    without whitespace at either end; and its link is the href of the
    anchor of column 1 behind [https://www.sec.gov/]. *)
Theorem lister_output_stripped rows filter_text :
  ∃ out,
    get_soup_contents_of (Some rows) filter_text = Ret out
    ∧ Forall (λ ref : FilingReference,
                Readback.stripped ref.1.1
                ∧ Readback.stripped ref.2
                ∧ ∃ row c0 c1 c3 a href,
                    row ∈ rows
                    ∧ find_all_td row !! 0%nat = Some c0
                    ∧ find_all_td row !! 1%nat = Some c1
                    ∧ find_all_td row !! 3%nat = Some c3
                    ∧ find_a c1 = Some a
                    ∧ attr_href a = Some href
                    ∧ ref = (strip (get_text c0), sec_gov ++ href,
                             strip (get_text c3))) out.
Proof.
  exists (omap (SpecWeb.listed filter_text) rows). split; [apply lister_loop|].
  apply Forall_forall. intros ref (row & Hin & Hrow)%list_elem_of_omap.
  unfold SpecWeb.listed, SpecWeb.row_reference in Hrow.
  destruct (find_all_td row !! 0%nat) as [c0|] eqn:H0; [|done].
  destruct (find_all_td row !! 1%nat) as [c1|] eqn:H1; [|done].
  destruct (find_all_td row !! 3%nat) as [c3|] eqn:H3; [|done].
  cbn -[sec_gov contains strip] in Hrow.
  destruct (find_a c1) as [a|] eqn:Ha; cbn -[sec_gov contains strip] in Hrow;
    [|done].
  destruct (attr_href a) as [href|] eqn:Hhref; cbn -[sec_gov contains strip] in Hrow;
    [|done].
  destruct (contains _ _); [|done]. injection Hrow as <-.
  cbn [fst snd]. split_and!; [apply strip_stripped..|].
  by exists row, c0, c1, c3, a, href.
Qed.
End lister_output.

(** ** The selector, whatever the server answers *)

Section selector_any_answer.
Context (w : World).
Implicit Types (link ticker_link page : str) (inner_hrefs links : list str).
Implicit Types (log : list event) (infos : list (str * Z)).

Lemma make_request_log link log :
  ∃ o, make_request w link log = (o, log ++ [EvGet link])
       ∧ ∀ data, o = Ret data → link ≠ [] ∧ http_content w link = Some data.
Proof.
  destruct link as [|x link].
  - exists (Raise RequestException). by split.
  - rewrite make_request_run by done.
    destruct (http_content w (x :: link)) as [data|] eqn:E.
    + exists (Ret data). split; [done|]. by intros ? [= <-].
    + exists (Raise RequestException). by split.
Qed.

(** The fetch inside [try ... except: return None] never raises. *)
Lemma guarded_fetch_log link log :
  try_except (data ← make_request w link; mret (Some data)) (mret None) log
  = (Ret (match link with [] => None | _ :: _ => http_content w link end),
     log ++ [EvGet link]).
Proof.
  destruct link as [|x link]; [apply guarded_fetch_empty|].
  by apply guarded_fetch_run.
Qed.

Lemma probe_link_log link log :
  ∃ o, probe_link w link log = (o, log ++ [EvProbe link])
       ∧ ∀ info, o = Ret info → info.1 = link.
Proof.
  unfold probe_link, try_except, mbind, M_bind, emit, mret, M_ret, raise.
  destruct (http_content_length w link) as [[n|]|].
  - exists (Ret (link, n)). split; [done|]. by intros ? [= <-].
  - exists (Raise ValueError). by split.
  - exists (Ret (link, 0%Z)). split; [done|]. by intros ? [= <-].
Qed.

(** The probes go through the links in order and stop at the first one
    that raises. *)
Lemma probe_all_log links log :
  ∃ o (k : nat),
    mapM (probe_link w) links log = (o, log ++ map EvProbe (take k links))
    ∧ ∀ infos, o = Ret infos → map fst infos = links.
Proof.
  revert log. induction links as [|link links IH]; intros log.
  - exists (Ret []), 0%nat. cbn. rewrite app_nil_r. split; [done|]. by intros ? [= <-].
  - cbn [mapM]. unfold mbind at 1, M_bind at 1.
    destruct (probe_link_log link log) as (o1 & -> & Ho1).
    destruct o1 as [info|e].
    + unfold mbind at 1, M_bind at 1.
      destruct (IH (log ++ [EvProbe link])) as (o2 & k & -> & Ho2).
      destruct o2 as [infos|e].
      * exists (Ret (info :: infos)), (S k). cbn. rewrite <- app_assoc.
        split; [done|]. intros ? [= <-]. cbn. by rewrite (Ho1 _ eq_refl), (Ho2 _ eq_refl).
      * exists (Raise e), (S k). cbn. rewrite <- app_assoc. by split.
    + exists (Raise e), 1%nat. cbn. rewrite take_0. by split.
Qed.

(** The search ends on the empty link or on one of the probed links. *)
Lemma smallest_link_among infos :
  (foldl smallest_step (smallest_start, []) infos).2 = []
  ∨ (foldl smallest_step (smallest_start, []) infos).2 ∈ map fst infos.
Proof.
  destruct (smallest_search infos (smallest_start, []))
    as [[-> _]|(i & link & n & Hi & -> & _)]; [by left|right].
  cbn [snd]. apply list_elem_of_fmap. exists (link, n).
  split; [done|]. by eapply list_elem_of_lookup_2.
Qed.

(** Every link the first loop keeps is an href behind
    [https://www.sec.gov/], and it keeps one when it finds a [.xml]. *)
Lemma collect_links_kept inner_hrefs links :
  ∃ more,
    (collect_links inner_hrefs links).1 = links ++ more
    ∧ Forall (λ link, ∃ href, link = sec_gov ++ href) more
    ∧ ((collect_links inner_hrefs links).2 = true → more ≠ []).
Proof.
  revert links. induction inner_hrefs as [|each rest IH]; intros links.
  - exists []. cbn. by rewrite app_nil_r.
  - cbn [collect_links]. destruct (contains (lit ".xml") each).
    + exists [sec_gov ++ each]. cbn [fst snd]. split_and!; [done| |done].
      constructor; [by exists each|done].
    + destruct (contains (lit ".txt") each).
      * destruct (IH (links ++ [sec_gov ++ each])) as (more & Hm & Hall & Hne).
        exists ((sec_gov ++ each) :: more). rewrite Hm, <- app_assoc.
        split_and!; [done| |done]. constructor; [by exists each|done].
      * apply IH.
Qed.

(** The shape of every run of the selector, from any log. *)
Lemma selector_log ticker_link log :
  ∃ o probed fetched,
    extract_data_from_text_files w ticker_link log
    = (o, log ++ [EvGet ticker_link] ++ map EvProbe probed ++ map EvGet fetched)
    ∧ (length fetched ≤ 1)%nat
    ∧ Forall (λ link, ∃ href, link = sec_gov ++ href) probed
    ∧ Forall (λ link, link = [] ∨ ∃ href, link = sec_gov ++ href) fetched
    ∧ ∀ r, o = Ret r →
        ∃ link, fetched = [link]
                ∧ r = match link with [] => None | _ :: _ => http_content w link end.
Proof.
  unfold extract_data_from_text_files. unfold mbind at 1, M_bind at 1.
  destruct (make_request_log ticker_link log) as (o0 & -> & Ho0).
  destruct o0 as [page|e].
  2:{ exists (Raise e), [], []. cbn -[sec_gov]. split_and!; [done|lia|done..]. }
  destruct (soup_tableFile w page) as [inner_hrefs|].
  2:{ exists (Raise AttributeError), [], []. cbn -[sec_gov]. split_and!; [done|lia|done..]. }
  destruct (collect_links_kept inner_hrefs []) as (more & Hlinks & Hmore & Hfound).
  destruct (collect_links inner_hrefs []) as [inner_links xml_found].
  cbn [fst snd app] in Hlinks, Hfound. subst inner_links.
  destruct xml_found; cbn [negb].
  - destruct more as [|link rest]; [by destruct Hfound|].
    change (try_except
              (link0 ← lift (index (link :: rest) 0);
               xml_data ← make_request w link0; mret (Some xml_data))
              (mret None) (log ++ [EvGet ticker_link]))
      with (try_except (data ← make_request w link; mret (Some data)) (mret None)
              (log ++ [EvGet ticker_link])).
    rewrite guarded_fetch_log. eexists _, [], [link]. cbn -[sec_gov]. rewrite <- app_assoc.
    split_and!; [done|lia|done| |].
    + constructor; [|done]. right. by apply Forall_cons in Hmore as [? _].
    + intros r [= <-]. by exists link.
  - unfold mbind at 1, M_bind at 1.
    destruct (probe_all_log more (log ++ [EvGet ticker_link])) as (o1 & k & -> & Ho1).
    destruct o1 as [infos|e].
    2:{ exists (Raise e), (take k more), []. cbn -[sec_gov]. rewrite app_nil_r, <- app_assoc.
        split_and!; [done|lia|by apply Forall_take|done|done]. }
    pose proof (smallest_link_among infos) as Hsel.
    destruct (foldl smallest_step (smallest_start, []) infos) as [smallest smallest_link].
    cbn [snd] in Hsel. rewrite guarded_fetch_log.
    eexists _, (take k more), [smallest_link]. cbn -[sec_gov]. rewrite <- !app_assoc.
    split_and!; [done|lia|by apply Forall_take| |].
    + constructor; [|done]. destruct Hsel as [->|Hin]; [by left|right].
      rewrite (Ho1 _ eq_refl) in Hin. eapply Forall_forall in Hmore; done.
    + intros r [= <-]. by exists smallest_link.
Qed.

(** X9.  Whatever the server answers: after the detail page the selector only
    probes links behind [https://www.sec.gov/]; it fetches at most one
    body, of such a link or of the empty URL, and that fetch is the last
    thing it does; it writes no file; and when it returns, what it
    returns is what that one fetch gave, the absence signal when it
    failed. *)
Theorem selector_trace ticker_link log :
  ∃ o probed fetched,
    extract_data_from_text_files w ticker_link log
    = (o, log ++ [EvGet ticker_link] ++ map EvProbe probed ++ map EvGet fetched)
    ∧ (length fetched ≤ 1)%nat
    ∧ Forall (λ link, ∃ href, link = sec_gov ++ href) probed
    ∧ Forall (λ link, link = [] ∨ ∃ href, link = sec_gov ++ href) fetched
    ∧ ∀ r, o = Ret r →
        ∃ link, fetched = [link]
                ∧ r = match link with [] => None | _ :: _ => http_content w link end.
Proof.
  destruct (selector_log ticker_link log)
    as (o & probed & fetched & Hrun & Hone & Hprobed & Hfetched & Hret).
  exists o, probed, fetched. by split_and!.
Qed.

Lemma probe_link_bad link log :
  http_content_length w link = Some NotDigits →
  probe_link w link log = (Raise ValueError, log ++ [EvProbe link]).
Proof.
  intros Hbad. unfold probe_link, try_except, mbind, M_bind, emit, mret, M_ret, raise.
  by rewrite Hbad.
Qed.

Lemma probe_all_bad (pre post : list str) (bad : str) log :
  Forall (λ link, is_Some (SpecWeb.reported_length w link)) pre →
  http_content_length w bad = Some NotDigits →
  mapM (probe_link w) (pre ++ bad :: post) log
  = (Raise ValueError, log ++ map EvProbe pre ++ [EvProbe bad]).
Proof.
  intros Hpre Hbad. revert log.
  induction Hpre as [|link pre [n Hn] _ IH]; intros log.
  - cbn [app mapM map]. unfold mbind at 1, M_bind at 1.
    by rewrite probe_link_bad.
  - cbn [app mapM map]. unfold mbind at 1, M_bind at 1.
    rewrite (probe_link_run _ _ _ _ Hn). unfold mbind at 1, M_bind at 1.
    rewrite IH. by rewrite <- app_assoc.
Qed.

(** X10.  [int(content_length)] on line 144 is outside the [try]: on a detail
    page without a [.xml] href, the first text candidate whose
    [Content-length] header is no number makes the selector raise
    [ValueError], after the probes up to that candidate and before any
    body is fetched. *)
Theorem selector_bad_header_raises ticker_link page inner_hrefs
    (pre post : list str) (bad : str) :
  run (make_request w ticker_link) = (Ret page, [EvGet ticker_link]) →
  soup_tableFile w page = Some inner_hrefs →
  Forall (λ href, contains (lit ".xml") href = false) inner_hrefs →
  SpecWeb.text_candidates inner_hrefs = pre ++ bad :: post →
  Forall (λ link, is_Some (SpecWeb.reported_length w link)) pre →
  http_content_length w bad = Some NotDigits →
  run (extract_data_from_text_files w ticker_link)
  = (Raise ValueError, [EvGet ticker_link] ++ map EvProbe pre ++ [EvProbe bad]).
Proof.
  intros Hpage Htable Hxml Hcands Hpre Hbad.
  rewrite (selector_prefix_run _ _ _ _ Hpage Htable).
  rewrite (collect_links_no_xml _ [] Hxml). cbn [app negb]. rewrite Hcands.
  unfold mbind at 1, M_bind at 1. by rewrite probe_all_bad.
Qed.
End selector_any_answer.

Lemma selector_bad_header_raises_witness :
  (run (make_request Readback.bad_header_world Examples.detail_link)
   = (Ret Examples.detail_page, [EvGet Examples.detail_link])
   ∧ soup_tableFile Readback.bad_header_world Examples.detail_page
     = Some [lit "/Archives/plain.txt"]
   ∧ http_content_length Readback.bad_header_world
       (Examples.link_of "/Archives/plain.txt") = Some NotDigits)
  ∧ run (extract_data_from_text_files Readback.bad_header_world Examples.detail_link)
    = (Raise ValueError,
       [EvGet Examples.detail_link] ++ map EvProbe []
       ++ [EvProbe (Examples.link_of "/Archives/plain.txt")]).
Proof.
  split; [by vm_compute|].
  apply (selector_bad_header_raises Readback.bad_header_world
           Examples.detail_link Examples.detail_page [lit "/Archives/plain.txt"]
           [] [] (Examples.link_of "/Archives/plain.txt")).
  - by vm_compute.
  - by vm_compute.
  - repeat constructor.
  - by vm_compute.
  - constructor.
  - by vm_compute.
Defined.

(** ** The driver *)

Section driver.
Context (w : World).
Implicit Types (ticker_id filter_text page : str) (rows : list Tr).
Implicit Types (log evs : list event) (docs : list FilingReference).

Lemma build_url_not_nil ticker_id : build_url ticker_id ≠ [].
Proof. done. Qed.

Lemma main_after_index ticker_id filter_text page :
  http_content w (build_url ticker_id) = Some page →
  run (main w ticker_id filter_text)
  = (docs_contents ← lift (get_soup_contents w page filter_text);
     st ← for_each (main_step w ticker_id) (∅, []) docs_contents;
     mret st.2) [EvGet (build_url ticker_id)].
Proof.
  intros Hpage. unfold run, main. unfold mbind at 1, M_bind at 1.
  rewrite make_request_run by apply build_url_not_nil. by rewrite Hpage.
Qed.

(** X13.  An index page without the filings table, as an identifier that is
    not known gets, does not give an empty result: [table.findAll] on
    [None] raises, and [main] ends with [AttributeError] after the one
    request. *)
Theorem main_index_without_table ticker_id filter_text page :
  http_content w (build_url ticker_id) = Some page →
  soup_tableFile2 w page = None →
  run (main w ticker_id filter_text)
  = (Raise AttributeError, [EvGet (build_url ticker_id)]).
Proof.
  intros Hpage Htable. rewrite (main_after_index _ _ _ Hpage).
  unfold get_soup_contents. by rewrite Htable.
Qed.

(** X14.  When no row of the index has the columns and a title with the
    filter, [main] ends normally with no result file: nothing is
    requested beyond the index page and nothing is written. *)
Theorem main_no_match ticker_id filter_text page rows :
  http_content w (build_url ticker_id) = Some page →
  soup_tableFile2 w page = Some rows →
  Forall (λ row, SpecWeb.listed filter_text row = None) rows →
  run (main w ticker_id filter_text) = (Ret [], [EvGet (build_url ticker_id)]).
Proof.
  intros Hpage Htable Hnone. rewrite (main_after_index _ _ _ Hpage).
  unfold get_soup_contents. rewrite Htable, lister_loop.
  assert (omap (SpecWeb.listed filter_text) rows = []) as ->; [|done].
  clear Htable. induction Hnone as [|row rows Hrow _ IH]; [done|].
  csimpl. by rewrite Hrow.
Qed.
End driver.

Lemma main_index_without_table_witness :
  (http_content (Readback.index_worlds None) (build_url Examples.ticker_id)
   = Some Examples.index_page
   ∧ soup_tableFile2 (Readback.index_worlds None) Examples.index_page = None)
  ∧ run (main (Readback.index_worlds None) Examples.ticker_id (lit "13F"))
    = (Raise AttributeError, [EvGet (build_url Examples.ticker_id)]).
Proof.
  split; [by vm_compute|].
  apply (main_index_without_table (Readback.index_worlds None)
           Examples.ticker_id (lit "13F") Examples.index_page); by vm_compute.
Defined.

Lemma main_no_match_witness :
  (http_content (Readback.index_worlds (Some [Examples.filing_row "/Archives/1-index.htm" "2006-05-15"]))
     (build_url Examples.ticker_id) = Some Examples.index_page
   ∧ SpecWeb.listed (lit "10-K") (Examples.filing_row "/Archives/1-index.htm" "2006-05-15")
     = None)
  ∧ run (main (Readback.index_worlds (Some [Examples.filing_row "/Archives/1-index.htm" "2006-05-15"]))
              Examples.ticker_id (lit "10-K"))
    = (Ret [], [EvGet (build_url Examples.ticker_id)]).
Proof.
  split; [by vm_compute|].
  apply (main_no_match
           (Readback.index_worlds (Some [Examples.filing_row "/Archives/1-index.htm" "2006-05-15"]))
           Examples.ticker_id (lit "10-K") Examples.index_page
           [Examples.filing_row "/Archives/1-index.htm" "2006-05-15"]).
  - by vm_compute.
  - by vm_compute.
  - repeat constructor.
Defined.

(** ** The files [main] writes *)

Section driver_files.
Context (w : World).
Implicit Types (ticker_id filter_text page : str) (files : list str).
Implicit Types (log evs : list event) (docs : list FilingReference).

Lemma written_paths_probes (links : list str) :
  Readback.written_paths (map EvProbe links) = [].
Proof. by induction links. Qed.

Lemma written_paths_gets (links : list str) :
  Readback.written_paths (map EvGet links) = [].
Proof. by induction links. Qed.

Lemma replace_slash (s : str) : slash ∉ replace slash dash s.
Proof.
  unfold replace. induction s as [|x s IH]; [apply not_elem_of_nil|].
  cbn [map]. intros [Hx|Hin]%elem_of_cons; [|done].
  destruct (N.eqb_spec x slash); [done|congruence].
Qed.

(** [convert_to_tsv] opens at most one file, the one of its path; when it
    raises before the file is open, nothing is written. *)
Lemma convert_to_tsv_in_log (filename text : str) log :
  ∃ o evs,
    convert_to_tsv_in w filename text log = (o, log ++ evs)
    ∧ ((evs = [] ∧ o = Raise OSError)
       ∨ ∃ content, evs = [EvWrite (lit "results/" ++ filename ++ lit ".tsv") content]).
Proof.
  unfold convert_to_tsv_in.
  destruct (open_raises w (lit "results/" ++ filename ++ lit ".tsv")).
  - exists (Raise OSError), []. rewrite app_nil_r. split; [done|by left].
  - unfold mbind, M_bind, emit, raise, mret, M_ret.
    destruct (close_raises w (lit "results/" ++ filename ++ lit ".tsv"));
      eexists _, _; (split; [done|right; by eexists]).
Qed.

(** One filing adds at most one file; the name put on the list is the
    name of the file written, and it holds no slash. *)
Lemma main_step_files ticker_id (st : gmap (list N) (list N) * list str)
    (each : FilingReference) log :
  ∃ o evs files,
    main_step w ticker_id st each log = (o, log ++ evs)
    ∧ Readback.written_paths evs = map (λ f, lit "results/" ++ f) files
    ∧ Forall (λ f, slash ∉ f) files
    ∧ ∀ st', o = Ret st' → st'.2 = st.2 ++ files.
Proof.
  destruct st as [xml_results results_files], each as [[doc_title doc_link] date].
  unfold main_step. unfold mbind at 1, M_bind at 1.
  destruct (selector_log w doc_link log)
    as (o & probed & fetched & -> & _ & _ & _ & _).
  assert (Readback.written_paths
            ([EvGet doc_link] ++ map EvProbe probed ++ map EvGet fetched) = [])
    as Hquiet.
  { unfold Readback.written_paths.
    rewrite !omap_app. fold Readback.written_paths.
    by rewrite written_paths_probes, written_paths_gets. }
  destruct o as [[text_data|]|e].
  - unfold mbind at 1, M_bind at 1, lift.
    destruct (extract_xml_content_from_text_in w text_data) as [[xml_data|]|e].
    + cbv zeta. set (filename := replace slash dash _).
      set (text := default [] _).
      unfold mbind at 1, M_bind at 1.
      destruct (convert_to_tsv_in_log filename text
                  (log ++ [EvGet doc_link] ++ map EvProbe probed ++ map EvGet fetched))
        as (o & evs & -> & Hevs).
      assert (slash ∉ filename ++ lit ".tsv") as Hname.
      { intros [Hin|Hin]%elem_of_app.
        - by apply replace_slash in Hin.
        - revert Hin. apply (bool_decide_unpack _). by vm_compute. }
      destruct Hevs as [[-> ->]|[content ->]].
      * eexists _, _, []. rewrite app_nil_r. by split_and!.
      * exists (match o with
                | Ret _ => Ret (<[doc_title ++ lit "_" ++ ticker_id := xml_data]> xml_results,
                                results_files ++ [filename ++ lit ".tsv"])
                | Raise e => Raise e
                end),
          (([EvGet doc_link] ++ map EvProbe probed ++ map EvGet fetched)
           ++ [EvWrite (lit "results/" ++ filename ++ lit ".tsv") content]),
          [filename ++ lit ".tsv"].
        split_and!.
        -- rewrite <- !app_assoc. by destruct o.
        -- unfold Readback.written_paths in *. by rewrite omap_app, Hquiet.
        -- by constructor.
        -- destruct o; [|done]. by intros ? [= <-].
    + eexists _, _, []. split_and!; [done..|].
      intros ? [= <-]. cbn. by rewrite app_nil_r.
    + eexists _, _, []. by split_and!.
  - eexists _, _, []. split_and!; [done..|].
    intros ? [= <-]. cbn. by rewrite app_nil_r.
  - eexists _, _, []. by split_and!.
Qed.

Lemma for_each_files ticker_id docs (st : gmap (list N) (list N) * list str) log :
  ∃ o evs files,
    for_each (main_step w ticker_id) st docs log = (o, log ++ evs)
    ∧ Readback.written_paths evs = map (λ f, lit "results/" ++ f) files
    ∧ Forall (λ f, slash ∉ f) files
    ∧ ∀ st', o = Ret st' → st'.2 = st.2 ++ files.
Proof.
  revert st log. induction docs as [|each docs IH]; intros st log.
  - exists (Ret st), [], []. rewrite !app_nil_r. split_and!; [done..|].
    by intros ? [= <-].
  - cbn [for_each]. unfold mbind at 1, M_bind at 1.
    destruct (main_step_files ticker_id st each log)
      as (o1 & evs1 & files1 & -> & Hw1 & Hs1 & Hst1).
    destruct o1 as [st1|e].
    + destruct (IH st1 (log ++ evs1)) as (o2 & evs2 & files2 & -> & Hw2 & Hs2 & Hst2).
      exists o2, (evs1 ++ evs2), (files1 ++ files2). split_and!.
      * by rewrite app_assoc.
      * unfold Readback.written_paths in *. by rewrite omap_app, Hw1, Hw2, map_app.
      * by apply Forall_app.
      * intros st' Ho. rewrite (Hst2 _ Ho), (Hst1 _ eq_refl). by rewrite app_assoc.
    + exists (Raise e), evs1, files1. by split_and!.
Qed.

Lemma main_files ticker_id filter_text :
  ∃ o log files,
    run (main w ticker_id filter_text) = (o, log)
    ∧ Readback.written_paths log = map (λ f, lit "results/" ++ f) files
    ∧ Forall (λ f, slash ∉ f) files
    ∧ ∀ results_files, o = Ret results_files → results_files = files.
Proof.
  unfold run, main. unfold mbind at 1, M_bind at 1.
  destruct (make_request_log w (build_url ticker_id) []) as (o0 & -> & _).
  destruct o0 as [page_data|e]; [|eexists _, _, []; by split_and!].
  unfold mbind at 1, M_bind at 1, lift.
  destruct (get_soup_contents w page_data filter_text) as [docs|e];
    [|eexists _, _, []; by split_and!].
  unfold mbind at 1, M_bind at 1.
  destruct (for_each_files ticker_id docs (∅, []) ([] ++ [EvGet (build_url ticker_id)]))
    as (o & evs & files & -> & Hw & Hs & Hst).
  destruct o as [st|e]; cbn [mret M_ret].
  - eexists _, _, files. split_and!; [done| |done|].
    + unfold Readback.written_paths in *. by rewrite omap_app, Hw.
    + intros ? [= <-]. by rewrite (Hst _ eq_refl).
  - eexists _, _, files. split_and!; [done| |done..].
    unfold Readback.written_paths in *. by rewrite omap_app, Hw.
Qed.

(** X15.  In every run of [main], whatever the server, the parsers and the
    file system do, and whether the run ends normally or is cut short by
    an exception (of a request, of a missing table, of [int], of
    [etree.fromstring], of [os.makedirs], [open] or the closing of a
    file): the files opened are files of the [results] directory whose
    names hold no slash; and when the run ends normally, the list it
    reports is exactly the list of the files it opened, in the order it
    opened them. *)
Theorem main_reports_written_files ticker_id filter_text :
  ∃ files,
    Readback.written_paths (run (main w ticker_id filter_text)).2
    = map (λ f, lit "results/" ++ f) files
    ∧ Forall (λ f, slash ∉ f) files
    ∧ ∀ results_files,
        (run (main w ticker_id filter_text)).1 = Ret results_files →
        results_files = files.
Proof.
  destruct (main_files ticker_id filter_text) as (o & log & files & -> & Hw & Hs & Hr).
  exists files. by split_and!.
Qed.
End driver_files.

Lemma xml_branch_fetches_head_witness :
  (run (make_request Examples.text_before_xml_world Examples.detail_link)
   = (Ret Examples.detail_page, [EvGet Examples.detail_link])
   ∧ soup_tableFile Examples.text_before_xml_world Examples.detail_page
     = Some ([lit "/Archives/submission.txt"] ++ lit "/Archives/infotable.xml" :: []))
  ∧ run (extract_data_from_text_files Examples.text_before_xml_world Examples.detail_link)
    = (Ret (Some (lit "complete submission text")),
       [EvGet Examples.detail_link; EvGet (Examples.link_of "/Archives/submission.txt")]).
Proof.
  split; [by vm_compute|].
  pose proof (xml_branch_fetches_head Examples.text_before_xml_world
    Examples.detail_link Examples.detail_page
    [lit "/Archives/submission.txt"] [] (lit "/Archives/infotable.xml")) as H.
  rewrite H.
  - by vm_compute.
  - by vm_compute.
  - by vm_compute.
  - repeat constructor.
  - by vm_compute.
Defined.

(** ** A candidate that cannot be probed *)

Section unprobed.
Context (w : World).
Implicit Types (link ticker_link page dead : str) (inner_hrefs pre post : list str).

Local Open Scope Z_scope.

(** X12.  The zero of line 143 wins the search: on a detail page without a
    [.xml] href, a text candidate whose probe raises or has no
    [Content-length] header is the one fetched, whenever every other
    candidate reports a positive length below the starting value; what
    comes back is the outcome of fetching that candidate. *)
Theorem unprobed_candidate_wins ticker_link page inner_hrefs pre post dead :
  run (make_request w ticker_link) = (Ret page, [EvGet ticker_link]) →
  soup_tableFile w page = Some inner_hrefs →
  Forall (λ href, contains (lit ".xml") href = false) inner_hrefs →
  SpecWeb.text_candidates inner_hrefs = pre ++ dead :: post →
  http_content_length w dead = None →
  Forall (λ other, ∃ n, http_content_length w other = Some (Digits n)
                        ∧ 0 < n < smallest_start) (pre ++ post) →
  run (extract_data_from_text_files w ticker_link)
  = (Ret (http_content w dead),
     [EvGet ticker_link] ++ map EvProbe (pre ++ dead :: post) ++ [EvGet dead]).
Proof.
  intros Hpage Htable Hxml Hcands Hdead Hothers.
  apply Forall_app in Hothers as [Hpre Hpost].
  assert (SpecWeb.reported_length w dead = Some 0) as Hzero.
  { unfold SpecWeb.reported_length. by rewrite Hdead. }
  assert (∀ other n, http_content_length w other = Some (Digits n) →
                     SpecWeb.length_of w other = n) as Hlen.
  { intros other n Hn. unfold SpecWeb.length_of, SpecWeb.reported_length.
    by rewrite Hn. }
  rewrite (selector_prefix_run _ _ _ _ Hpage Htable).
  rewrite (collect_links_no_xml _ [] Hxml). cbn [app negb]. rewrite Hcands.
  unfold mbind at 1, M_bind at 1. rewrite probe_all_run.
  2:{ apply Forall_app. split; [|constructor; [by eexists|]].
      - eapply Forall_impl; [exact Hpre|]. intros other (n & Hn & _).
        unfold SpecWeb.reported_length. rewrite Hn. by eexists.
      - eapply Forall_impl; [exact Hpost|]. intros other (n & Hn & _).
        unfold SpecWeb.reported_length. rewrite Hn. by eexists. }
  set (infos := map (λ other, (other, SpecWeb.length_of w other)) (pre ++ dead :: post)).
  assert ((foldl smallest_step (smallest_start, []) infos).2 = dead) as Hsel.
  { apply smallest_search_first with (i := length pre) (n := 0).
    - unfold infos. rewrite list_lookup_fmap, list_lookup_middle by done.
      cbn. unfold SpecWeb.length_of. by rewrite Hzero.
    - done.
    - unfold infos. apply Forall_fmap, Forall_app. split; [|constructor].
      + eapply Forall_impl; [exact Hpre|]. intros other (n & Hn & ? & _).
        cbn. rewrite (Hlen _ _ Hn). lia.
      + cbn. unfold SpecWeb.length_of. by rewrite Hzero.
      + eapply Forall_impl; [exact Hpost|]. intros other (n & Hn & ? & _).
        cbn. rewrite (Hlen _ _ Hn). lia.
    - unfold infos. rewrite <- fmap_take, take_app_length.
      apply Forall_fmap. eapply Forall_impl; [exact Hpre|].
      intros other (n & Hn & ? & _). cbn. by rewrite (Hlen _ _ Hn). }
  destruct (foldl smallest_step (smallest_start, []) infos) as [smallest smallest_link].
  cbn [snd] in Hsel. subst smallest_link.
  rewrite guarded_fetch_run.
  - by rewrite <- app_assoc.
  - apply (text_candidates_not_nil inner_hrefs). rewrite Hcands.
    apply elem_of_app. right. left.
Qed.
End unprobed.

Lemma unprobed_candidate_wins_witness :
  (run (make_request Readback.unprobed_world Examples.detail_link)
   = (Ret Examples.detail_page, [EvGet Examples.detail_link])
   ∧ SpecWeb.text_candidates [lit "/Archives/gone.txt"; lit "/Archives/plain.txt"]
     = [] ++ Examples.link_of "/Archives/gone.txt" :: [Examples.link_of "/Archives/plain.txt"]
   ∧ http_content_length Readback.unprobed_world (Examples.link_of "/Archives/gone.txt")
     = None
   ∧ http_content_length Readback.unprobed_world (Examples.link_of "/Archives/plain.txt")
     = Some (Digits 500))
  ∧ run (extract_data_from_text_files Readback.unprobed_world Examples.detail_link)
    = (Ret None,
       [ EvGet Examples.detail_link;
         EvProbe (Examples.link_of "/Archives/gone.txt");
         EvProbe (Examples.link_of "/Archives/plain.txt");
         EvGet (Examples.link_of "/Archives/gone.txt") ]).
Proof.
  split; [by vm_compute|].
  pose proof (unprobed_candidate_wins Readback.unprobed_world
    Examples.detail_link Examples.detail_page
    [lit "/Archives/gone.txt"; lit "/Archives/plain.txt"]
    [] [Examples.link_of "/Archives/plain.txt"]
    (Examples.link_of "/Archives/gone.txt")) as H.
  rewrite H.
  - by vm_compute.
  - by vm_compute.
  - by vm_compute.
  - repeat constructor.
  - by vm_compute.
  - by vm_compute.
  - repeat constructor. exists 500%Z. by vm_compute.
Defined.

(** ** Where the code leaves its own path *)

Section slips.
Import Examples.

(** C3 on the code.  A [Content-length] header that is no number is a
    length that cannot be determined, but [int] on line 144 is outside
    the [try] of lines 140-143: on a detail page with two text files, the
    second with such a header, the selector raises [ValueError] after the
    two probes and fetches nothing, where the length should count as zero
    and that file, which can be fetched, be the one returned. *)
Theorem non_numeric_length_raises :
  soup_tableFile Readback.non_numeric_world detail_page
  = Some [lit "/Archives/signed.txt"; lit "/Archives/plain.txt"]
  ∧ http_content_length Readback.non_numeric_world (link_of "/Archives/signed.txt")
    = Some (Digits 12000)
  ∧ http_content_length Readback.non_numeric_world (link_of "/Archives/plain.txt")
    = Some NotDigits
  ∧ http_content Readback.non_numeric_world (link_of "/Archives/plain.txt")
    = Some (lit "<TABLE>holdings</TABLE>")
  ∧ run (extract_data_from_text_files Readback.non_numeric_world detail_link)
    = (Raise ValueError,
       [ EvGet detail_link;
         EvProbe (link_of "/Archives/signed.txt");
         EvProbe (link_of "/Archives/plain.txt") ]).
Proof. vm_compute. split_and!; done. Qed.

(** C6 on the code.  On an index page without the filings table
    [soup.find] gives [None] and [table.findAll] on line 176, outside any
    [try], raises [AttributeError], whatever the filter; a row short of
    its columns, inside the [try] of lines 185-197, is passed over. *)
Theorem lister_raises_without_table :
  soup_tableFile2 (Readback.index_worlds None) index_page = None
  ∧ get_soup_contents (Readback.index_worlds None) index_page (lit "13F")
    = Raise AttributeError
  ∧ get_soup_contents (Readback.index_worlds None) index_page []
    = Raise AttributeError
  ∧ get_soup_contents (Readback.index_worlds (Some [{| find_all_td := [] |}]))
      index_page (lit "13F")
    = Ret [].
Proof. vm_compute. split_and!; done. Qed.

Example main_stops_on_parser_error :
  run (main Readback.empty_body_world ticker_id (lit "13F"))
  = (Raise XMLSyntaxError,
     [ EvGet (build_url ticker_id);
       EvGet detail_link;
       EvGet (link_of "/Archives/1.xml") ]).
Proof. vm_compute. reflexivity. Qed.

Example write_skips_unencodable_line :
  run (convert_to_tsv_in Readback.utf8_world (lit "f") Readback.surrogate_text)
  = (Ret tt, [EvWrite (lit "results/f.tsv") (lit "plain s" ++ [nl])]).
Proof. vm_compute. reflexivity. Qed.
End slips.
